(** * Verification of the message callback of [tools/mqtt_subscriber.py]

    The development embeds [on_message] of the BME680 MQTT subscriber
    together with the part of the Python runtime the callback relies on:
    [bytes.decode], [json.loads], [json.dumps], f-string formatting, the
    ordering of numbers, [dict.get] and [print].

    Representation.  A Python [str] is held as its UTF-8 encoding in a Rocq
    [string] (a lone surrogate, which only a JSON escape can produce, is
    held in the generalised three-byte form); a Python [bytes] value is a
    Rocq [string] as well.  A Python [float] is a [spec_float] of the
    Standard Library at precision 53.  The console is the list of the
    texts passed to [print].

    Limits of the runtime model.  The interpreter's resource limits are
    not modelled: the recursion limit (a deeply nested document), the
    limit on the digits of an int literal, and memory.  The console is
    taken to accept every [str].  The text of a [JSONDecodeError] is not
    modelled, since the program never reads it. *)

From Stdlib Require Import ZArith NArith List String Ascii Bool Lia QArith Lqa.
From Stdlib Require Import DecimalString SpecFloat.
Import ListNotations.

Local Open Scope string_scope.
Local Open Scope Z_scope.

(** ** Text helpers *)

Definition str := string.
Definition bytes := string.

(** The character U+0022, written by its decimal code. *)
Definition dquote : ascii := "034"%char.

(** [dq s] is [s] with every apostrophe replaced by U+0022; it is only used
    to write JSON payloads of examples. *)
Fixpoint dq (s : string) : string :=
  match s with
  | EmptyString => EmptyString
  | String c r => String (if Ascii.eqb c "'" then dquote else c) (dq r)
  end.

(** [s * n] on Python strings. *)
Fixpoint str_repeat (s : str) (n : nat) : str :=
  match n with
  | O => ""
  | S k => s ++ str_repeat s k
  end.

(** [str(z)] for a Python [int]. *)
Definition Z_to_str (z : Z) : str := NilZero.string_of_int (Z.to_int z).

Definition hex_digit (n : N) : ascii :=
  if (n <? 10)%N then ascii_of_N (48 + n) else ascii_of_N (87 + n).

(** The [k] low hexadecimal digits of [n], most significant first. *)
Fixpoint hex_fixed (k : nat) (n : N) : string :=
  match k with
  | O => ""
  | S k' => hex_fixed k' (n / 16) ++ String (hex_digit (n mod 16)) ""
  end.

Fixpoint str_contains_char (c : ascii) (s : string) : bool :=
  match s with
  | EmptyString => false
  | String a r => Ascii.eqb a c || str_contains_char c r
  end.

(** Substring test, used to look for a marker inside a rendered line. *)
Fixpoint str_contains (needle hay : string) : bool :=
  match hay with
  | EmptyString => String.eqb needle ""
  | String _ r => String.prefix needle hay || str_contains needle r
  end.

(** ** Python values and exceptions *)

(** The values [json.loads] can return.  A [dict] keeps its insertion
    order, which [json.dumps] and [repr] show. *)
#[warnings="-register-all"]
Inductive value : Type :=
  | VNone
  | VBool (b : bool)
  | VInt (z : Z)
  | VFloat (f : spec_float)
  | VStr (s : str)
  | VList (l : list value)
  | VDict (d : list (str * value)).

(** The exception classes that occur in the program or its runtime.
    [KeyboardInterrupt] and [SystemExit] derive from [BaseException] only. *)
Inductive exn_class : Type :=
  | UnicodeDecodeError
  | JSONDecodeError
  | ValueError
  | TypeError
  | AttributeError
  | OverflowError
  | RecursionError
  | KeyboardInterrupt
  | SystemExit.

Record exn : Type := mk_exn { exn_cls : exn_class; exn_msg : str }.

(** [isinstance(e, json.JSONDecodeError)] *)
Definition is_JSONDecodeError (e : exn) : bool :=
  match exn_cls e with JSONDecodeError => true | _ => false end.

(** [isinstance(e, Exception)] *)
Definition is_Exception (e : exn) : bool :=
  match exn_cls e with KeyboardInterrupt | SystemExit => false | _ => true end.

(** [str(e)] *)
Definition exn_str (e : exn) : str := exn_msg e.

(** Result of evaluating a Python expression. *)
Inductive result (A : Type) : Type :=
  | Ok (a : A)
  | Err (e : exn).
Arguments Ok {A} a.
Arguments Err {A} e.

Definition type_name (v : value) : str :=
  match v with
  | VNone => "NoneType"
  | VBool _ => "bool"
  | VInt _ => "int"
  | VFloat _ => "float"
  | VStr _ => "str"
  | VList _ => "list"
  | VDict _ => "dict"
  end.

(** ** [bytes.decode()]: strict UTF-8 *)

Definition is_cont (c : ascii) : bool :=
  let n := N_of_ascii c in ((128 <=? n) && (n <? 192))%N.

Definition unexpected_end : str := "unexpected end of data".
Definition invalid_start : str := "invalid start byte".
Definition invalid_cont : str := "invalid continuation byte".

(** The first ill-formed sequence of [s], as (start, end, reason), with the
    positions counted from [pos]. *)
Fixpoint utf8_scan (pos : N) (s : bytes) : option (N * N * str) :=
  match s with
  | EmptyString => None
  | String c1 r1 =>
      let b1 := N_of_ascii c1 in
      if (b1 <? 128)%N then utf8_scan (pos + 1)%N r1
      else if (b1 <? 194)%N then Some (pos, pos + 1, invalid_start)%N
      else if (b1 <? 224)%N then
        match r1 with
        | EmptyString => Some (pos, pos + 1, unexpected_end)%N
        | String c2 r2 =>
            if is_cont c2 then utf8_scan (pos + 2)%N r2
            else Some (pos, pos + 1, invalid_cont)%N
        end
      else if (b1 <? 240)%N then
        match r1 with
        | EmptyString => Some (pos, pos + 1, unexpected_end)%N
        | String c2 r2 =>
            let b2 := N_of_ascii c2 in
            if negb (is_cont c2)
               || (if (b2 <? 160)%N then (b1 =? 224)%N else (b1 =? 237)%N)
            then Some (pos, pos + 1, invalid_cont)%N
            else
              match r2 with
              | EmptyString => Some (pos, pos + 2, unexpected_end)%N
              | String c3 r3 =>
                  if is_cont c3 then utf8_scan (pos + 3)%N r3
                  else Some (pos, pos + 2, invalid_cont)%N
              end
        end
      else if (b1 <? 245)%N then
        match r1 with
        | EmptyString => Some (pos, pos + 1, unexpected_end)%N
        | String c2 r2 =>
            let b2 := N_of_ascii c2 in
            if negb (is_cont c2)
               || (if (b2 <? 144)%N then (b1 =? 240)%N else (b1 =? 244)%N)
            then Some (pos, pos + 1, invalid_cont)%N
            else
              match r2 with
              | EmptyString => Some (pos, pos + 2, unexpected_end)%N
              | String c3 r3 =>
                  if is_cont c3 then
                    match r3 with
                    | EmptyString => Some (pos, pos + 3, unexpected_end)%N
                    | String c4 r4 =>
                        if is_cont c4 then utf8_scan (pos + 4)%N r4
                        else Some (pos, pos + 3, invalid_cont)%N
                    end
                  else Some (pos, pos + 2, invalid_cont)%N
              end
        end
      else Some (pos, pos + 1, invalid_start)%N
  end.

Definition N_to_str (n : N) : str := Z_to_str (Z.of_N n).

Definition byte_at (s : bytes) (i : N) : N :=
  match String.get (N.to_nat i) s with
  | Some c => N_of_ascii c
  | None => 0%N
  end.

(** [str(e)] of the [UnicodeDecodeError] raised for the range [start, stop). *)
Definition unicode_decode_error (s : bytes) (start stop : N) (reason : str) : exn :=
  mk_exn UnicodeDecodeError
    (if (stop =? start + 1)%N then
       "'utf-8' codec can't decode byte 0x" ++ hex_fixed 2 (byte_at s start)
       ++ " in position " ++ N_to_str start ++ ": " ++ reason
     else
       "'utf-8' codec can't decode bytes in position " ++ N_to_str start
       ++ "-" ++ N_to_str (stop - 1) ++ ": " ++ reason).

Definition bytes_decode (b : bytes) : result str :=
  match utf8_scan 0 b with
  | None => Ok b
  | Some (start, stop, reason) => Err (unicode_decode_error b start stop reason)
  end.

(** ** Python [float]: IEEE-754 binary64

    A [float] is a [spec_float] in canonical form for precision 53 and
    exponent bound 1024; conversions round to nearest, ties to even, with
    the Standard Library's [binary_round_aux]. *)

Definition prec : Z := 53.
Definition emax : Z := 1024.

(** The float nearest to [d * 10 ^ x] for a decimal literal with digits
    [d >= 0] and exponent [x] ([float(text)]). *)
Definition float_of_decimal (neg : bool) (d x : Z) : spec_float :=
  match d with
  | Zpos p =>
      if 0 <=? x then
        match Zpos p * 10 ^ x with
        | Zpos m => binary_round prec emax neg m 0
        | _ => S754_zero neg
        end
      else
        let '(q, e, l) := SFdiv_core_binary prec emax (Zpos p) 0 (10 ^ (- x)) 0 in
        binary_round_aux prec emax neg q e l
  | _ => S754_zero neg
  end.

(** [float(z)] for a Python [int]: [OverflowError] when the rounded value
    leaves the finite range. *)
Definition float_of_int (z : Z) : result spec_float :=
  match binary_normalize prec emax z 0 false with
  | S754_infinity _ =>
      Err (mk_exn OverflowError "int too large to convert to float")
  | f => Ok f
  end.

Definition float_eqb (a b : spec_float) : bool :=
  match a, b with
  | S754_zero s, S754_zero t => Bool.eqb s t
  | S754_infinity s, S754_infinity t => Bool.eqb s t
  | S754_nan, S754_nan => true
  | S754_finite s m e, S754_finite t n g =>
      Bool.eqb s t && Pos.eqb m n && Z.eqb e g
  | _, _ => false
  end.

(** The exact value of a finite float, as a rational. *)
Definition float_value (f : spec_float) : option Q :=
  match f with
  | S754_zero _ => Some 0%Q
  | S754_finite s m e =>
      let sm := if s then Zneg m else Zpos m in
      Some (if 0 <=? e then inject_Z (sm * 2 ^ e)
            else Qmake sm (Z.to_pos (2 ^ (- e))))
  | _ => None
  end.

(** [f <= z] for a float and an int: Python compares the exact values; a
    NaN compares false. *)
Definition float_le_int (f : spec_float) (z : Z) : bool :=
  match f with
  | S754_nan => false
  | S754_infinity s => s
  | S754_zero _ => 0 <=? z
  | S754_finite s m e =>
      let sm := if s then Zneg m else Zpos m in
      if 0 <=? e then sm * 2 ^ e <=? z else sm <=? z * 2 ^ (- e)
  end.

(** [num / den] rounded to the nearest integer, ties to even
    ([den > 0], [num >= 0]). *)
Definition round_half_even (num den : Z) : Z :=
  let q := num / den in
  match 2 * (num mod den) ?= den with
  | Lt => q
  | Gt => q + 1
  | Eq => if Z.even q then q else q + 1
  end.

(** Left-pads the decimal digits of [n] with zeros to width [w]. *)
Definition zero_pad (w : nat) (n : Z) : str :=
  let s := Z_to_str n in
  str_repeat "0" (w - String.length s) ++ s.

(** The digits of [n / 10 ^ p] in fixed notation with [p] decimals. *)
Definition fixed_point (p : nat) (n : Z) : str :=
  let scale := 10 ^ Z.of_nat p in
  Z_to_str (n / scale)
  ++ match p with
     | O => ""
     | S _ => "." ++ zero_pad p (n mod scale)
     end.

Definition sign_str (s : bool) : str := if s then "-" else "".

(** [format(f, '.pf')] for a float: the exact value rounded to [p]
    decimals, ties to even. *)
Definition float_format_f (p : nat) (f : spec_float) : str :=
  match f with
  | S754_nan => "nan"
  | S754_infinity s => sign_str s ++ "inf"
  | S754_zero s => sign_str s ++ fixed_point p 0
  | S754_finite s m e =>
      let scale := 10 ^ Z.of_nat p in
      sign_str s
      ++ fixed_point p
           (if 0 <=? e then Zpos m * 2 ^ e * scale
            else round_half_even (Zpos m * scale) (2 ^ (- e)))
  end.

(** *** [repr] of a float: the shortest digits that read back *)

(** Exact comparison of [num / den] with [10 ^ k]. *)
Definition below_pow10 (num den k : Z) : bool :=
  if 0 <=? k then num <? den * 10 ^ k else num * 10 ^ (- k) <? den.

(** The least [k >= k0] with [num / den < 10 ^ k]. *)
Fixpoint decimal_point (fuel : nat) (num den k : Z) : Z :=
  match fuel with
  | O => k
  | S fuel' =>
      if below_pow10 num den k then k else decimal_point fuel' num den (k + 1)
  end.

(** [floor (num / den * 10 ^ j)] and whether the fraction dropped is below,
    at, or above one half. *)
Definition scaled_floor (num den j : Z) : Z * comparison :=
  let n := if 0 <=? j then num * 10 ^ j else num in
  let d := if 0 <=? j then den else den * 10 ^ (- j) in
  (n / d, 2 * (n mod d) ?= d).

(** The [n]-digit decimals next to [f = num / den] that read back as [f];
    the nearer one wins. *)
Definition short_candidate (f : spec_float) (num den k : Z) (n : Z)
  : option Z :=
  let '(lo, half) := scaled_floor num den (n - k) in
  let hi := lo + 1 in
  let reads c := float_eqb (float_of_decimal false c (k - n)) f in
  match reads lo, reads hi with
  | true, true =>
      match half with
      | Lt => Some lo
      | Gt => Some hi
      | Eq => Some (if Z.even lo then lo else hi)
      end
  | true, false => Some lo
  | false, true => Some hi
  | false, false => None
  end.

Fixpoint shortest_digits (fuel : nat) (f : spec_float) (num den k n : Z)
  : Z * Z :=
  match fuel with
  | O => (fst (scaled_floor num den (n - k)), n)
  | S fuel' =>
      match short_candidate f num den k n with
      | Some c => (c, n)
      | None => shortest_digits fuel' f num den k (n + 1)
      end
  end.

(** Removes the trailing zeros of a digit string. *)
Fixpoint strip_zeros (s : str) : str :=
  match s with
  | EmptyString => EmptyString
  | String c r =>
      match strip_zeros r with
      | EmptyString => if Ascii.eqb c "0" then EmptyString else String c ""
      | r' => String c r'
      end
  end.

(** Lays out digits [ds] with decimal point position [decpt]
    (value [0.ds * 10 ^ decpt]) the way [repr] does. *)
Definition repr_layout (ds : str) (decpt : Z) : str :=
  let len := Z.of_nat (String.length ds) in
  if (decpt <=? -4) || (16 <? decpt) then
    let ex := decpt - 1 in
    String.substring 0 1 ds
    ++ (if 1 <? len then "." ++ String.substring 1 (String.length ds - 1) ds
        else "")
    ++ "e" ++ (if ex <? 0 then "-" else "+") ++ zero_pad 2 (Z.abs ex)
  else if decpt <=? 0 then
    "0." ++ str_repeat "0" (Z.to_nat (- decpt)) ++ ds
  else if len <=? decpt then
    ds ++ str_repeat "0" (Z.to_nat (decpt - len)) ++ ".0"
  else
    String.substring 0 (Z.to_nat decpt) ds ++ "."
    ++ String.substring (Z.to_nat decpt) (String.length ds - Z.to_nat decpt) ds.

(** [repr(f)] = [str(f)] *)
Definition float_repr (f : spec_float) : str :=
  match f with
  | S754_nan => "nan"
  | S754_infinity s => sign_str s ++ "inf"
  | S754_zero s => sign_str s ++ "0.0"
  | S754_finite s m e =>
      let num := if 0 <=? e then Zpos m * 2 ^ e else Zpos m in
      let den := if 0 <=? e then 1 else 2 ^ (- e) in
      let k := decimal_point 700 num den (-330) in
      let '(c, n) :=
        shortest_digits 17 (S754_finite false m e) num den k 1 in
      let ds := Z_to_str c in
      let decpt := k + (Z.of_nat (String.length ds) - n) in
      sign_str s ++ repr_layout (strip_zeros ds) decpt
  end.

(** ** Code points of a [str] *)

(** UTF-8 encoding of the code point [c] (generalised: a surrogate takes
    three bytes). *)
Definition utf8_encode (c : N) : str :=
  let b (n : N) := String (ascii_of_N n) "" in
  (if c <? 128 then b c
   else if c <? 2048 then b (192 + c / 64) ++ b (128 + c mod 64)
   else if c <? 65536 then
     b (224 + c / 4096) ++ b (128 + (c / 64) mod 64) ++ b (128 + c mod 64)
   else
     b (240 + c / 262144) ++ b (128 + (c / 4096) mod 64)
     ++ b (128 + (c / 64) mod 64) ++ b (128 + c mod 64))%N.

(** The code points of a [str]. *)
Fixpoint code_points (s : str) : list N :=
  let low (c : ascii) := (N_of_ascii c mod 64)%N in
  match s with
  | EmptyString => []
  | String c1 r1 =>
      let b1 := N_of_ascii c1 in
      match r1 with
      | String c2 r2 =>
          if (b1 <? 192)%N then b1 :: code_points r1
          else if (b1 <? 224)%N then
            ((b1 mod 32) * 64 + low c2)%N :: code_points r2
          else
            match r2 with
            | String c3 r3 =>
                if (b1 <? 240)%N then
                  ((b1 mod 16) * 4096 + low c2 * 64 + low c3)%N
                  :: code_points r3
                else
                  match r3 with
                  | String c4 r4 =>
                      ((b1 mod 8) * 262144 + low c2 * 4096
                       + low c3 * 64 + low c4)%N :: code_points r4
                  | EmptyString => b1 :: code_points r1
                  end
            | EmptyString => b1 :: code_points r1
            end
      | EmptyString => [b1]
      end
  end.

Definition is_high_surrogate (c : N) : bool := ((55296 <=? c) && (c <? 56320))%N.
Definition is_low_surrogate (c : N) : bool := ((56320 <=? c) && (c <? 57344))%N.
Definition join_surrogates (h l : N) : N :=
  (65536 + (h - 55296) * 1024 + (l - 56320))%N.

(** ** [json.loads] *)

(** Outcome of a scanner on a suffix of the text: a value with the text
    left, a syntax error, or the recursion budget used up. *)
Inductive scan (A : Type) : Type :=
  | Parsed (a : A) (rest : string)
  | Malformed
  | Exhausted.
Arguments Parsed {A} a rest.
Arguments Malformed {A}.
Arguments Exhausted {A}.

Definition is_ws (c : ascii) : bool :=
  let n := N_of_ascii c in
  ((n =? 32) || (n =? 9) || (n =? 10) || (n =? 13))%N.

Fixpoint skip_ws (s : string) : string :=
  match s with
  | String c r => if is_ws c then skip_ws r else s
  | EmptyString => s
  end.

Definition is_digit (c : ascii) : bool :=
  let n := N_of_ascii c in ((48 <=? n) && (n <=? 57))%N.

Definition digit_val (c : ascii) : Z := Z.of_N (N_of_ascii c) - 48.

(** Reads a run of decimal digits: their value, their number, the rest. *)
Fixpoint take_digits (s : string) (acc cnt : Z) : Z * Z * string :=
  match s with
  | String c r =>
      if is_digit c then take_digits r (acc * 10 + digit_val c) (cnt + 1)
      else (acc, cnt, s)
  | EmptyString => (acc, cnt, s)
  end.

Definition hex_val (c : ascii) : option N :=
  let n := N_of_ascii c in
  (if (48 <=? n) && (n <=? 57) then Some (n - 48)
   else if (97 <=? n) && (n <=? 102) then Some (n - 87)
   else if (65 <=? n) && (n <=? 70) then Some (n - 55)
   else None)%N.

Definition hex4 (a b c d : ascii) : option N :=
  match hex_val a, hex_val b, hex_val c, hex_val d with
  | Some x, Some y, Some z, Some w => Some (((x * 16 + y) * 16 + z) * 16 + w)%N
  | _, _, _, _ => None
  end.

(** The character a one-letter escape stands for. *)
Definition simple_escape (e : ascii) : option ascii :=
  if Ascii.eqb e dquote then Some dquote
  else if Ascii.eqb e "\" then Some "\"%char
  else if Ascii.eqb e "/" then Some "/"%char
  else if Ascii.eqb e "b" then Some "008"%char
  else if Ascii.eqb e "f" then Some "012"%char
  else if Ascii.eqb e "n" then Some "010"%char
  else if Ascii.eqb e "r" then Some "013"%char
  else if Ascii.eqb e "t" then Some "009"%char
  else None.

(** The body of a JSON string after its opening quote (strict mode).
    [pending] is a high surrogate read from an escape and not yet paired. *)
Fixpoint scanstring (pending : option N) (acc : str) (s : string)
  : option (str * string) :=
  let flush :=
    match pending with
    | Some h => acc ++ utf8_encode h
    | None => acc
    end in
  match s with
  | EmptyString => None
  | String c r =>
      if Ascii.eqb c dquote then Some (flush, r)
      else if Ascii.eqb c "\" then
        match r with
        | String e r1 =>
            if Ascii.eqb e "u" then
              match r1 with
              | String h1 (String h2 (String h3 (String h4 r2))) =>
                  match hex4 h1 h2 h3 h4 with
                  | Some u =>
                      match pending with
                      | Some h =>
                          if is_low_surrogate u then
                            scanstring None
                              (acc ++ utf8_encode (join_surrogates h u)) r2
                          else if is_high_surrogate u then
                            scanstring (Some u) flush r2
                          else scanstring None (flush ++ utf8_encode u) r2
                      | None =>
                          if is_high_surrogate u then scanstring (Some u) acc r2
                          else scanstring None (acc ++ utf8_encode u) r2
                      end
                  | None => None
                  end
              | _ => None
              end
            else
              match simple_escape e with
              | Some ch => scanstring None (flush ++ String ch "") r1
              | None => None
              end
        | EmptyString => None
        end
      else if (N_of_ascii c <? 32)%N then None
      else scanstring None (flush ++ String c "") r
  end.

(** [s] without the prefix [p], when it starts with it. *)
Fixpoint strip_prefix (p s : string) : option string :=
  match p, s with
  | EmptyString, _ => Some s
  | String a p', String b s' => if Ascii.eqb a b then strip_prefix p' s' else None
  | String _ _, EmptyString => None
  end.

(** The optional minus sign of a number. *)
Definition number_sign (s : string) : bool * string :=
  match s with
  | String c r => if Ascii.eqb c "-" then (true, r) else (false, s)
  | EmptyString => (false, s)
  end.

(** The integer part: a single [0], or a run of digits. *)
Definition number_int (s : string) : option (Z * string) :=
  match s with
  | String c r =>
      if is_digit c then
        if Ascii.eqb c "0" then Some (0, r)
        else let '(v, _, rest) := take_digits s 0 0 in Some (v, rest)
      else None
  | EmptyString => None
  end.

(** The fraction, when a dot is followed by a digit: its digits as an
    integer, and how many there are. *)
Definition number_frac (s : string) : Z * Z * string :=
  match s with
  | String dot (String d r) =>
      if Ascii.eqb dot "." && is_digit d
      then take_digits (String d r) 0 0
      else (0, 0, s)
  | _ => (0, 0, s)
  end.

(** The exponent, when [e] or [E] and an optional sign are followed by a
    digit; otherwise nothing is consumed. *)
Definition number_exp (s : string) : Z * Z * string :=
  match s with
  | String e r =>
      if Ascii.eqb e "e" || Ascii.eqb e "E" then
        let '(sg, r') :=
          match r with
          | String g t =>
              if Ascii.eqb g "-" then (-1, t)
              else if Ascii.eqb g "+" then (1, t)
              else (1, r)
          | EmptyString => (1, r)
          end in
        let '(v, n, rest) := take_digits r' 0 0 in
        if 0 <? n then (sg * v, n, rest) else (0, 0, s)
      else (0, 0, s)
  | EmptyString => (0, 0, s)
  end.

(** A JSON number: an int when it has neither fraction nor exponent. *)
Definition scan_number (s : string) : scan value :=
  let '(neg, s1) := number_sign s in
  match number_int s1 with
  | Some (i, r0) =>
      let '(fd, fn, r1) := number_frac r0 in
      let '(ex, en, r2) := number_exp r1 in
      if (0 <? fn) || (0 <? en)
      then Parsed (VFloat (float_of_decimal neg (i * 10 ^ fn + fd) (ex - fn))) r2
      else Parsed (VInt (if neg then - i else i)) r2
  | None => Malformed
  end.

(** [d[k] = v] on a dict. *)
Fixpoint dict_set (k : str) (v : value) (d : list (str * value))
  : list (str * value) :=
  match d with
  | [] => [(k, v)]
  | (k', v') :: r =>
      if String.eqb k' k then (k', v) :: r else (k', v') :: dict_set k v r
  end.

Fixpoint dict_lookup (k : str) (d : list (str * value)) : option value :=
  match d with
  | [] => None
  | (k', v) :: r => if String.eqb k' k then Some v else dict_lookup k r
  end.

(** Literal names of the grammar, with the non-standard ones that
    [json.loads] accepts by default. *)
Definition scan_literal (s : string) : option (value * string) :=
  match strip_prefix "null" s with
  | Some r => Some (VNone, r)
  | None =>
  match strip_prefix "true" s with
  | Some r => Some (VBool true, r)
  | None =>
  match strip_prefix "false" s with
  | Some r => Some (VBool false, r)
  | None =>
  match strip_prefix "NaN" s with
  | Some r => Some (VFloat S754_nan, r)
  | None =>
  match strip_prefix "Infinity" s with
  | Some r => Some (VFloat (S754_infinity false), r)
  | None =>
  match strip_prefix "-Infinity" s with
  | Some r => Some (VFloat (S754_infinity true), r)
  | None => None
  end end end end end end.

(** The scanner: one JSON term at the head of [s].  [fuel] bounds the
    number of nested calls. *)
Fixpoint scan_once (fuel : nat) (s : string) {struct fuel} : scan value :=
  match fuel with
  | O => Exhausted
  | S fuel' =>
      match s with
      | EmptyString => Malformed
      | String c r =>
          if Ascii.eqb c dquote then
            match scanstring None "" r with
            | Some (t, rest) => Parsed (VStr t) rest
            | None => Malformed
            end
          else if Ascii.eqb c "{" then
            match skip_ws r with
            | String c' r' =>
                if Ascii.eqb c' "}" then Parsed (VDict []) r'
                else parse_object fuel' (String c' r') []
            | EmptyString => Malformed
            end
          else if Ascii.eqb c "[" then
            match skip_ws r with
            | String c' r' =>
                if Ascii.eqb c' "]" then Parsed (VList []) r'
                else parse_array fuel' (String c' r') []
            | EmptyString => Malformed
            end
          else
            match scan_literal s with
            | Some (v, rest) => Parsed v rest
            | None => scan_number s
            end
      end
  end

with parse_array (fuel : nat) (s : string) (acc : list value) {struct fuel}
  : scan value :=
  match fuel with
  | O => Exhausted
  | S fuel' =>
      match scan_once fuel' s with
      | Parsed v rest =>
          match skip_ws rest with
          | String c r =>
              if Ascii.eqb c "]" then Parsed (VList (rev (v :: acc))) r
              else if Ascii.eqb c ","
              then parse_array fuel' (skip_ws r) (v :: acc)
              else Malformed
          | EmptyString => Malformed
          end
      | Malformed => Malformed
      | Exhausted => Exhausted
      end
  end

with parse_object (fuel : nat) (s : string) (acc : list (str * value))
  {struct fuel} : scan value :=
  match fuel with
  | O => Exhausted
  | S fuel' =>
      match s with
      | String q r =>
          if Ascii.eqb q dquote then
            match scanstring None "" r with
            | Some (key, rest) =>
                match skip_ws rest with
                | String colon r2 =>
                    if Ascii.eqb colon ":" then
                      match scan_once fuel' (skip_ws r2) with
                      | Parsed v rest2 =>
                          match skip_ws rest2 with
                          | String c r3 =>
                              if Ascii.eqb c "}"
                              then Parsed (VDict (dict_set key v acc)) r3
                              else if Ascii.eqb c ","
                              then parse_object fuel' (skip_ws r3)
                                     (dict_set key v acc)
                              else Malformed
                          | EmptyString => Malformed
                          end
                      | Malformed => Malformed
                      | Exhausted => Exhausted
                      end
                    else Malformed
                | EmptyString => Malformed
                end
            | None => Malformed
            end
          else Malformed
      | EmptyString => Malformed
      end
  end.

Definition json_decode_error : exn := mk_exn JSONDecodeError "".

(** [json.loads(s)] for a [str]: one term, surrounded by whitespace only.
    The text of a [JSONDecodeError] is left empty: the program never reads
    it.  The budget [2 * len(s) + 2] is never used up (lemma
    [scan_once_fuel] below), so the [RecursionError] case is dead. *)
Definition json_loads (s : str) : result value :=
  match scan_once (2 * String.length s + 2) (skip_ws s) with
  | Parsed v rest =>
      match skip_ws rest with
      | EmptyString => Ok v
      | String _ _ => Err json_decode_error
      end
  | Malformed => Err json_decode_error
  | Exhausted => Err (mk_exn RecursionError "maximum recursion depth exceeded")
  end.

(** ** [json.dumps(obj, indent=2)] *)

Definition newline : str := String "010"%char "".

(** One character of a string under [ensure_ascii]. *)
Definition json_escape_char (c : N) : str :=
  (if c =? 34 then "\" ++ String dquote ""
   else if c =? 92 then "\\"
   else if c =? 10 then "\n"
   else if c =? 13 then "\r"
   else if c =? 9 then "\t"
   else if c =? 8 then "\b"
   else if c =? 12 then "\f"
   else if (32 <=? c) && (c <=? 126) then String (ascii_of_N c) ""
   else if c <? 65536 then "\u" ++ hex_fixed 4 c
   else
     let v := c - 65536 in
     "\u" ++ hex_fixed 4 (55296 + v / 1024)
     ++ "\u" ++ hex_fixed 4 (56320 + v mod 1024))%N.

Definition json_encode_str (s : str) : str :=
  String dquote (String.concat "" (map json_escape_char (code_points s)))
  ++ String dquote "".

Definition json_floatstr (f : spec_float) : str :=
  match f with
  | S754_nan => "NaN"
  | S754_infinity false => "Infinity"
  | S754_infinity true => "-Infinity"
  | _ => float_repr f
  end.

(** The encoder at nesting depth [level], with two spaces per level and
    the item separator [","]. *)
Fixpoint json_encode (level : nat) (v : value) : str :=
  let inner := newline ++ str_repeat "  " (S level) in
  let outer := newline ++ str_repeat "  " level in
  match v with
  | VNone => "null"
  | VBool true => "true"
  | VBool false => "false"
  | VInt z => Z_to_str z
  | VFloat f => json_floatstr f
  | VStr s => json_encode_str s
  | VList [] => "[]"
  | VList l =>
      "[" ++ inner
      ++ (fix items (l : list value) : str :=
            match l with
            | [] => ""
            | x :: r =>
                json_encode (S level) x
                ++ match r with
                   | [] => ""
                   | _ :: _ => "," ++ inner ++ items r
                   end
            end) l
      ++ outer ++ "]"
  | VDict [] => "{}"
  | VDict d =>
      "{" ++ inner
      ++ (fix items (d : list (str * value)) : str :=
            match d with
            | [] => ""
            | (k, x) :: r =>
                json_encode_str k ++ ": " ++ json_encode (S level) x
                ++ match r with
                   | [] => ""
                   | _ :: _ => "," ++ inner ++ items r
                   end
            end) d
      ++ outer ++ "}"
  end.

Definition json_dumps_indent2 (v : value) : str := json_encode 0 v.

(** ** Builtins that do not depend on the Unicode database *)

(** [dict.get(key, default)]; any other JSON value has no attribute [get]. *)
Definition py_get (payload : value) (key : str) (default : value)
  : result value :=
  match payload with
  | VDict d =>
      Ok (match dict_lookup key d with
          | Some v => v
          | None => default
          end)
  | _ =>
      Err (mk_exn AttributeError
             ("'" ++ type_name payload ++ "' object has no attribute 'get'"))
  end.

(** [v <= z] for an int literal [z]. *)
Definition py_le_int (v : value) (z : Z) : result bool :=
  match v with
  | VInt x => Ok (x <=? z)
  | VBool b => Ok ((if b then 1 else 0) <=? z)
  | VFloat f => Ok (float_le_int f z)
  | _ =>
      Err (mk_exn TypeError
             ("'<=' not supported between instances of '" ++ type_name v
              ++ "' and 'int'"))
  end.

(** [v == s] for a str literal [s]: never raises. *)
Definition py_eq_str (v : value) (s : str) : bool :=
  match v with
  | VStr t => String.eqb t s
  | _ => false
  end.

(** ** Callbacks as state transformers

    The state the callbacks can reach: the module-level [TOPICS] list and
    the console that [print] appends to (one entry per [print] call,
    without the line terminator). *)

Record world : Type := mk_world {
  topics : list (str * Z);
  stdout : list str
}.

Inductive outcome (A : Type) : Type :=
  | Returned (a : A)
  | Raised (e : exn).
Arguments Returned {A} a.
Arguments Raised {A} e.

Definition Py (A : Type) : Type := world -> outcome A * world.

Definition ret {A} (a : A) : Py A := fun w => (Returned a, w).

Definition bind {A B} (m : Py A) (k : A -> Py B) : Py B :=
  fun w =>
    match m w with
    | (Returned a, w') => k a w'
    | (Raised e, w') => (Raised e, w')
    end.

Definition raise {A} (e : exn) : Py A := fun w => (Raised e, w).

(** Evaluation of an expression inside a statement. *)
Definition lift {A} (r : result A) : Py A :=
  match r with
  | Ok a => ret a
  | Err e => raise e
  end.

(** [print(s)] *)
Definition print (s : str) : Py unit :=
  fun w => (Returned tt, mk_world (topics w) (stdout w ++ [s])).

(** [try: body / except ...: handler]; the handler chooses by class and
    re-raises what no clause matches. *)
Definition try_except {A} (body : Py A) (handler : exn -> Py A) : Py A :=
  fun w =>
    match body w with
    | (Raised e, w') => handler e w'
    | r => r
    end.

Notation "x <- m ;; k" := (bind m (fun x => k))
  (at level 61, m at next level, right associativity).
Notation "m ;; k" := (bind m (fun _ => k))
  (at level 61, right associativity).

(** ** Inputs of the worked examples

    The examples hold ASCII text only, so their reports are the same under
    every character database; [sample_database] classes no non-ASCII
    character as printable. *)

Definition sample_database : N -> bool := fun _ => false.

Definition sample_time : str := "2025-01-15 10:30:00".

Definition data_without_humidity : bytes :=
  dq "{'temperature': 21.5, 'pressure': 1013.25, 'gas_resistance': 50000, 'gas_valid': true}".

Definition data_humidity_text : bytes :=
  dq "{'temperature': 21.5, 'humidity': 'wet', 'pressure': 1013.25}".

Definition iaq_without_score : bytes :=
  dq "{'iaq_text': 'Good', 'iaq_level': 1, 'accuracy': 3, 'co2_equivalent': 412.7, 'voc_equivalent': 0.5, 'is_calibrated': true}".

Definition status_online : bytes :=
  dq "{'status':'online','client_id':'esp32-01'}".


(** ** The program, over the Unicode character database

    [repr] of a [str] keeps a non-ASCII character only when the Unicode
    database classes it as printable.  The database is not part of the
    repository, so the predicate [Py_UNICODE_ISPRINTABLE] is a parameter
    of everything below. *)

Section Program.

Variable isprintable : N -> bool.

(** *** [repr] and [str] *)

Definition repr_char (quote : N) (c : N) : str :=
  (if (c =? quote) || (c =? 92) then "\" ++ String (ascii_of_N c) ""
   else if c =? 9 then "\t"
   else if c =? 10 then "\n"
   else if c =? 13 then "\r"
   else if (c <? 32) || (c =? 127) then "\x" ++ hex_fixed 2 c
   else if c <? 127 then String (ascii_of_N c) ""
   else if isprintable c then utf8_encode c
   else if c <? 256 then "\x" ++ hex_fixed 2 c
   else if c <? 65536 then "\u" ++ hex_fixed 4 c
   else "\U" ++ hex_fixed 8 c)%N.

(** [repr(s)]: apostrophes around the text, unless it holds an apostrophe
    and no U+0022. *)
Definition str_repr (s : str) : str :=
  let quote :=
    if str_contains_char "'" s && negb (str_contains_char dquote s)
    then dquote else "'"%char in
  String quote
    (String.concat "" (map (repr_char (N_of_ascii quote)) (code_points s)))
  ++ String quote "".

Fixpoint py_repr (v : value) : str :=
  match v with
  | VNone => "None"
  | VBool true => "True"
  | VBool false => "False"
  | VInt z => Z_to_str z
  | VFloat f => float_repr f
  | VStr s => str_repr s
  | VList l =>
      "["
      ++ (fix items (l : list value) : str :=
            match l with
            | [] => ""
            | x :: r =>
                py_repr x
                ++ match r with
                   | [] => ""
                   | _ :: _ => ", " ++ items r
                   end
            end) l
      ++ "]"
  | VDict d =>
      "{"
      ++ (fix items (d : list (str * value)) : str :=
            match d with
            | [] => ""
            | (k, x) :: r =>
                str_repr k ++ ": " ++ py_repr x
                ++ match r with
                   | [] => ""
                   | _ :: _ => ", " ++ items r
                   end
            end) d
      ++ "}"
  end.

(** [str(v)] *)
Definition py_str (v : value) : str :=
  match v with
  | VStr s => s
  | _ => py_repr v
  end.

(** *** f-string replacement fields *)

(** The two format specifications the program uses: none, and [.pf]. *)
Inductive format_spec : Type :=
  | Plain
  | Fixed (p : nat).

(** [format(v, spec)] *)
Definition py_format (v : value) (spec : format_spec) : result str :=
  match spec with
  | Plain => Ok (py_str v)
  | Fixed p =>
      match v with
      | VFloat f => Ok (float_format_f p f)
      | VInt z =>
          match float_of_int z with
          | Ok f => Ok (float_format_f p f)
          | Err e => Err e
          end
      | VBool b =>
          match float_of_int (if b then 1 else 0) with
          | Ok f => Ok (float_format_f p f)
          | Err e => Err e
          end
      | VStr _ =>
          Err (mk_exn ValueError
                 "Unknown format code 'f' for object of type 'str'")
      | _ =>
          Err (mk_exn TypeError
                 ("unsupported format string passed to " ++ type_name v
                  ++ ".__format__"))
      end
  end.

(** The field [{payload.get(key, default):spec}]. *)
Definition get_field (payload : value) (key : str) (default : value)
    (spec : format_spec) : Py str :=
  v <- lift (py_get payload key default) ;;
  lift (py_format v spec).

(** *** The module *)

Definition TOPICS : list (str * Z) :=
  [ ("sensor/bme680/data", 0);
    ("sensor/bme680/iaq", 0);
    ("sensor/bme680/status", 0);
    ("sensor/bme680/alert", 0) ].

Definition tier1 : str := "🟢".
Definition tier2 : str := "🟡".
Definition tier3 : str := "🟠".
Definition tier4 : str := "🔴".

(** The colour indicator chosen by the [if]/[elif] chain on [iaq_score]. *)
Definition iaq_indicator (iaq_score : value) : result str :=
  match py_le_int iaq_score 50 with
  | Err e => Err e
  | Ok true => Ok tier1
  | Ok false =>
      match py_le_int iaq_score 100 with
      | Err e => Err e
      | Ok true => Ok tier2
      | Ok false =>
          match py_le_int iaq_score 150 with
          | Err e => Err e
          | Ok true => Ok tier3
          | Ok false => Ok tier4
          end
      end
  end.

Definition header (timestamp topic : str) : list str :=
  [ newline ++ str_repeat "─" 60;
    "📨 [" ++ timestamp ++ "] Topic: " ++ topic;
    str_repeat "─" 60 ].

(** The branch for [sensor/bme680/data]. *)
Definition data_branch (payload : value) : Py unit :=
  s <- get_field payload "temperature" (VStr "N/A") (Fixed 2) ;;
  print ("🌡️  Temperature  : " ++ s ++ " °C") ;;
  s <- get_field payload "humidity" (VStr "N/A") (Fixed 2) ;;
  print ("💧 Humidity     : " ++ s ++ " %") ;;
  s <- get_field payload "pressure" (VStr "N/A") (Fixed 2) ;;
  print ("🔵 Pressure     : " ++ s ++ " hPa") ;;
  s <- get_field payload "gas_resistance" (VStr "N/A") (Fixed 0) ;;
  print ("💨 Gas Resist.  : " ++ s ++ " Ohms") ;;
  s <- get_field payload "gas_valid" (VStr "N/A") Plain ;;
  print ("✓  Gas Valid    : " ++ s).

(** The branch for [sensor/bme680/iaq]. *)
Definition iaq_branch (payload : value) : Py unit :=
  iaq_score <- lift (py_get payload "iaq_score" (VInt 0)) ;;
  iaq_text <- lift (py_get payload "iaq_text" (VStr "Unknown")) ;;
  indicator <- lift (iaq_indicator iaq_score) ;;
  s <- lift (py_format iaq_score (Fixed 1)) ;;
  t <- lift (py_format iaq_text Plain) ;;
  print (indicator ++ " IAQ Score    : " ++ s ++ " [" ++ t ++ "]") ;;
  s <- get_field payload "iaq_level" (VStr "N/A") Plain ;;
  print ("🔢 IAQ Level    : " ++ s) ;;
  s <- get_field payload "accuracy" (VStr "N/A") Plain ;;
  print ("🎯 Accuracy     : " ++ s) ;;
  s <- get_field payload "co2_equivalent" (VStr "N/A") (Fixed 0) ;;
  print ("🌫️  CO2 Equiv.   : " ++ s ++ " ppm") ;;
  s <- get_field payload "voc_equivalent" (VStr "N/A") (Fixed 2) ;;
  print ("🧪 VOC Equiv.   : " ++ s ++ " ppm") ;;
  s <- get_field payload "is_calibrated" (VStr "N/A") Plain ;;
  print ("✓  Calibrated   : " ++ s).

Definition positive_marker : str := tier1.
Definition negative_marker : str := tier4.

(** [icon = ... if status == "online" else ...] *)
Definition status_icon (status : value) : str :=
  if py_eq_str status "online" then positive_marker else negative_marker.

(** The branch for [sensor/bme680/status]. *)
Definition status_branch (payload : value) : Py unit :=
  status <- lift (py_get payload "status" (VStr "unknown")) ;;
  client_id <- lift (py_get payload "client_id" (VStr "unknown")) ;;
  let icon := status_icon status in
  s <- lift (py_format status Plain) ;;
  print (icon ++ " Status: " ++ s) ;;
  c <- lift (py_format client_id Plain) ;;
  print ("📟 Client ID: " ++ c).

(** The branch for [sensor/bme680/alert]. *)
Definition alert_branch (payload : value) : Py unit :=
  s <- get_field payload "type" (VStr "N/A") Plain ;;
  print ("⚠️  Alert Type  : " ++ s) ;;
  s <- get_field payload "message" (VStr "N/A") Plain ;;
  print ("📢 Message     : " ++ s) ;;
  s <- get_field payload "client_id" (VStr "N/A") Plain ;;
  print ("📟 Client ID   : " ++ s).

(** The final [else]. *)
Definition fallback_branch (payload : value) : Py unit :=
  print ("Payload: " ++ json_dumps_indent2 payload).

(** The [if]/[elif] chain on the topic. *)
Definition dispatch_topic (topic : str) (payload : value) : Py unit :=
  if String.eqb topic "sensor/bme680/data" then data_branch payload
  else if String.eqb topic "sensor/bme680/iaq" then iaq_branch payload
  else if String.eqb topic "sensor/bme680/status" then status_branch payload
  else if String.eqb topic "sensor/bme680/alert" then alert_branch payload
  else fallback_branch payload.

Definition print_all (lines : list str) : Py unit :=
  fold_right (fun l k => print l ;; k) (ret tt) lines.

(** The [try] suite of [on_message]. *)
Definition on_message_try (timestamp topic : str) (raw : bytes) : Py unit :=
  text <- lift (bytes_decode raw) ;;
  payload <- lift (json_loads text) ;;
  print_all (header timestamp topic) ;;
  dispatch_topic topic payload.

(** The two [except] clauses, in order. *)
Definition on_message_except (raw : bytes) (e : exn) : Py unit :=
  if is_JSONDecodeError e then
    text <- lift (bytes_decode raw) ;;
    print ("Raw message: " ++ text)
  else if is_Exception e then
    print ("Error processing message: " ++ exn_str e)
  else raise e.

(** [on_message(client, userdata, msg)], with [timestamp] the text that
    [datetime.now().strftime(...)] returns, [topic = msg.topic] and
    [raw = msg.payload]. *)
Definition on_message (timestamp topic : str) (raw : bytes) : Py unit :=
  try_except (on_message_try timestamp topic raw) (on_message_except raw).

(** *** The category of a topic

    The spec's name for the branch the chain selects. *)
Inductive Category : Type := Data | AirQuality | Status | Alert | Unknown.

Definition categoryOf (topic : str) : Category :=
  if String.eqb topic "sensor/bme680/data" then Data
  else if String.eqb topic "sensor/bme680/iaq" then AirQuality
  else if String.eqb topic "sensor/bme680/status" then Status
  else if String.eqb topic "sensor/bme680/alert" then Alert
  else Unknown.

Definition branch_of (c : Category) : value -> Py unit :=
  match c with
  | Data => data_branch
  | AirQuality => iaq_branch
  | Status => status_branch
  | Alert => alert_branch
  | Unknown => fallback_branch
  end.

(** *** Runs of the callback *)

(** [w] after the lines [ls] were printed. *)
Definition emits (w : world) (ls : list str) : world :=
  mk_world (topics w) (stdout w ++ ls).

(** The module as loaded, with an empty console. *)
Definition initial_world : world := mk_world TOPICS [].

(** What one call prints, observed on an empty console. *)
Definition report (timestamp topic : str) (raw : bytes) : list str :=
  stdout (snd (on_message timestamp topic raw (mk_world [] []))).

(** Outcome and printed lines of the branch of [topic] on [payload]. *)
Definition branch_result (topic : str) (payload : value)
  : outcome unit * list str :=
  let '(r, w) := dispatch_topic topic payload (mk_world [] []) in
  (r, stdout w).

(** One delivery: the timestamp read at entry, the topic, the payload. *)
Definition delivery : Type := (str * str * bytes)%type.

(** The receive loop on a sequence of deliveries: one synchronous call of
    the callback per message; an exception leaving the callback would end
    the loop. *)
Fixpoint listen (ms : list delivery) : Py unit :=
  match ms with
  | [] => ret tt
  | (timestamp, topic, raw) :: rest =>
      on_message timestamp topic raw ;; listen rest
  end.

(** The number a JSON number stands for. *)
Definition numeric_value (v : value) : option Q :=
  match v with
  | VInt z => Some (inject_Z z)
  | VFloat f => float_value f
  | _ => None
  end.

(** The value [payload.get(key, default)] returns on a dict. *)
Definition get_or (d : list (str * value)) (key : str) (default : value)
  : value :=
  match dict_lookup key d with
  | Some v => v
  | None => default
  end.

Definition error_line (e : exn) : str :=
  "Error processing message: " ++ exn_str e.

Definition NA : value := VStr "N/A".

(** The text of the field [key] in a line without format code: the value's
    [str], or the marker when the key is absent. *)
Definition field_text (d : list (str * value)) (key : str) : str :=
  match dict_lookup key d with
  | Some v => py_str v
  | None => "N/A"
  end.

(** The document an example payload decodes to. *)
Definition decoded (text : str) : value :=
  match json_loads text with
  | Ok v => v
  | Err _ => VNone
  end.

(** The entries of a key/value document. *)
Definition entries (v : value) : list (str * value) :=
  match v with
  | VDict d => d
  | _ => []
  end.

(** *** Predicates on computations *)

(** A computation that only appends to the console: its outcome and the
    lines it prints do not depend on the world it starts from. *)
Definition console_only {A} (m : Py A) : Prop :=
  exists r ls, forall w, m w = (r, emits w ls).

(** Classes the second [except] clause catches and the first does not. *)
Definition ordinary (e : exn) : Prop :=
  is_Exception e = true /\ is_JSONDecodeError e = false.

Definition raises_ordinary {A} (m : Py A) : Prop :=
  forall w e w', m w = (Raised e, w') -> ordinary e.

Definition fails_ordinary {A} (r : result A) : Prop :=
  forall e, r = Err e -> ordinary e.


(** ** The connection callbacks and [main]

    The paho client is outside the repository.  What the program does to
    it is kept as state: the subscribe requests issued, in order.  What it
    does for the program is a parameter: the behaviour of [connect],
    [loop_forever] and [disconnect]. *)

(** The process as the callbacks see it: the console with the module's
    globals, and the subscribe requests made on the client. *)
Record session : Type := mk_session {
  console : world;
  subscribed : list (str * Z)
}.

Definition Cb (A : Type) : Type := session -> outcome A * session.

Definition cb_ret {A} (a : A) : Cb A := fun s => (Returned a, s).

Definition cb_bind {A B} (m : Cb A) (k : A -> Cb B) : Cb B :=
  fun s =>
    match m s with
    | (Returned a, s') => k a s'
    | (Raised e, s') => (Raised e, s')
    end.

Definition cb_raise {A} (e : exn) : Cb A := fun s => (Raised e, s).

Definition cb_try {A} (body : Cb A) (handler : exn -> Cb A) : Cb A :=
  fun s =>
    match body s with
    | (Raised e, s') => handler e s'
    | r => r
    end.

(** A statement that touches the console only. *)
Definition on_console {A} (m : Py A) : Cb A :=
  fun s =>
    let '(r, w) := m (console s) in
    (r, mk_session w (subscribed s)).

Definition say (line : str) : Cb unit := on_console (print line).

(** [client.subscribe(topic, qos)]: the request is recorded. *)
Definition subscribe (topic : str) (qos : Z) : Cb unit :=
  fun s =>
    (Returned tt, mk_session (console s) (subscribed s ++ [(topic, qos)])).

(** Reading the module-level [TOPICS]. *)
Definition read_topics : Cb (list (str * Z)) :=
  fun s => (Returned (topics (console s)), s).

Notation "x <~ m ;; k" := (cb_bind m (fun x => k))
  (at level 61, m at next level, right associativity).
Notation "m >> k" := (cb_bind m (fun _ => k))
  (at level 61, right associativity).

(** [for x in l: body(x)] *)
Fixpoint for_each {A} (l : list A) (body : A -> Cb unit) : Cb unit :=
  match l with
  | [] => cb_ret tt
  | x :: rest => body x >> for_each rest body
  end.

(** The reason code the client passes to the callbacks: [rc == 0] reads
    its value and [f"{rc}"] its text. *)
Record reason_code : Type := mk_rc { rc_value : Z; rc_text : str }.

Definition rule : str := str_repeat "=" 60.

(** [on_connect(client, userdata, flags, rc, properties)] *)
Definition on_connect (rc : reason_code) : Cb unit :=
  if rc_value rc =? 0 then
    say (newline ++ rule) >>
    say "✅ Connected to MQTT Broker successfully!" >>
    say rule >>
    (registry <~ read_topics ;;
     for_each registry
       (fun entry =>
          subscribe (fst entry) (snd entry) >>
          say ("📡 Subscribed to: " ++ fst entry))) >>
    say (rule ++ newline) >>
    say ("Waiting for sensor data..." ++ newline)
  else
    say ("❌ Failed to connect, return code " ++ rc_text rc).

(** [on_disconnect(client, userdata, rc, *args)] *)
Definition on_disconnect (rc : reason_code) : Cb unit :=
  say (newline ++ "⚠️  Disconnected from MQTT Broker (code: " ++ rc_text rc ++ ")").

(** What the client's network loop hands to the callbacks. *)
Inductive event : Type :=
  | Connected (rc : reason_code)
  | Disconnected (rc : reason_code)
  | Message (d : delivery).

(** The callback registered for an event. *)
Definition handle (ev : event) : Cb unit :=
  match ev with
  | Connected rc => on_connect rc
  | Disconnected rc => on_disconnect rc
  | Message d => on_console (on_message (fst (fst d)) (snd (fst d)) (snd d))
  end.

(** The callbacks run one after the other, in the order of the events. *)
Definition process (evs : list event) : Cb unit := for_each evs handle.

(** The client's methods that [main] calls. *)
Record transport : Type := mk_transport {
  connect : str -> Z -> Z -> Cb unit;
  loop_forever : Cb unit;
  disconnect : Cb unit
}.

(** [isinstance(e, KeyboardInterrupt)] *)
Definition is_KeyboardInterrupt (e : exn) : bool :=
  match exn_cls e with KeyboardInterrupt => true | _ => false end.

(** The two [except] clauses of [main]. *)
Definition main_except (client : transport) (e : exn) : Cb unit :=
  if is_KeyboardInterrupt e then
    say (newline ++ newline ++ "👋 Disconnecting...") >>
    disconnect client
  else if is_Exception e then
    say (newline ++ "❌ Error: " ++ exn_str e) >>
    cb_raise (mk_exn SystemExit "1")
  else cb_raise e.

(** [main()], after the arguments are parsed into [host] and [port]. *)
Definition main (client : transport) (host : str) (port : Z) : Cb unit :=
  say (newline ++ rule) >>
  say "🚀 BME680 MQTT Subscriber" >>
  say rule >>
  say ("Connecting to: " ++ host ++ ":" ++ Z_to_str port) >>
  cb_try (connect client host port 60 >> loop_forever client)
    (main_except client).

(** The lines a callback prints for an event, given the module's topics. *)
Definition event_lines (registry : list (str * Z)) (ev : event) : list str :=
  match ev with
  | Connected rc =>
      if rc_value rc =? 0 then
        [newline ++ rule; "✅ Connected to MQTT Broker successfully!"; rule]
        ++ map (fun entry => "📡 Subscribed to: " ++ fst entry) registry
        ++ [rule ++ newline; "Waiting for sensor data..." ++ newline]
      else ["❌ Failed to connect, return code " ++ rc_text rc]
  | Disconnected rc => [newline ++ "⚠️  Disconnected from MQTT Broker (code: " ++ rc_text rc ++ ")"]
  | Message d => report (fst (fst d)) (snd (fst d)) (snd d)
  end.

(** The subscribe requests an event causes. *)
Definition event_requests (registry : list (str * Z)) (ev : event)
  : list (str * Z) :=
  match ev with
  | Connected rc => if rc_value rc =? 0 then registry else []
  | _ => []
  end.

(** ** Predicates on documents *)

(** JSON values the ordering [<=] with an int accepts. *)
Definition is_number (v : value) : bool :=
  match v with
  | VInt _ | VBool _ | VFloat _ => true
  | _ => false
  end.

(** Values the format code [f] accepts: a float, a bool, or an int that
    converts to a float. *)
Definition formattable (v : value) : bool :=
  match v with
  | VFloat _ | VBool _ => true
  | VInt z =>
      match float_of_int z with
      | Ok _ => true
      | Err _ => false
      end
  | _ => false
  end.

(** The key is present in the document and holds a formattable value. *)
Definition has_number (d : list (str * value)) (key : str) : bool :=
  match dict_lookup key d with
  | Some v => formattable v
  | None => false
  end.

Fixpoint all_ws (s : string) : bool :=
  match s with
  | EmptyString => true
  | String c r => is_ws c && all_ws r
  end.

(** ** Further inputs of the worked examples *)

Definition not_utf8 : bytes := String "255"%char "abc".


Definition data_complete : bytes :=
  dq "{'temperature': 21.5, 'humidity': 40.123, 'pressure': 1013.25, 'gas_resistance': 50000, 'gas_valid': true}".

Definition iaq_complete : bytes :=
  dq "{'iaq_score': 87.5, 'iaq_text': 'Moderate', 'iaq_level': 2, 'accuracy': 3, 'co2_equivalent': 612.4, 'voc_equivalent': 0.83, 'is_calibrated': true}".

Definition iaq_score_text : bytes := dq "{'iaq_score': 'high'}".


Definition accepted : reason_code := mk_rc 0 "Success".

Definition refused : reason_code := mk_rc 135 "Not authorized".


(** A client whose [connect] raises [e]. *)
Definition refusing_client (e : exn) : transport :=
  mk_transport (fun _ _ _ => cb_raise e) (cb_ret tt) (cb_ret tt).

Definition initial_session : session := mk_session initial_world [].
(** * Properties *)

(** ** The scanner consumes its input and never uses up its budget *)

Lemma skip_ws_length (s : string) :
  (String.length (skip_ws s) <= String.length s)%nat.
Proof.
  induction s as [|c r IH]; simpl; [lia|].
  destruct (is_ws c); simpl; lia.
Qed.

Lemma take_digits_length (s : string) :
  forall acc cnt v n rest,
    take_digits s acc cnt = (v, n, rest) ->
    (String.length rest <= String.length s)%nat.
Proof.
  induction s as [|c r IH]; simpl; intros acc cnt v n rest H.
  - inversion H; subst; simpl; lia.
  - destruct (is_digit c).
    + apply IH in H. lia.
    + inversion H; subst; simpl; lia.
Qed.

Lemma strip_prefix_length (p : string) :
  forall s r, strip_prefix p s = Some r ->
    String.length s = (String.length p + String.length r)%nat.
Proof.
  induction p as [|a p IH]; simpl; intros s r H.
  - inversion H; reflexivity.
  - destruct s as [|b s]; [discriminate|].
    destruct (Ascii.eqb a b); [|discriminate].
    simpl. rewrite (IH _ _ H). reflexivity.
Qed.

Lemma scan_literal_length (s : string) (v : value) (rest : string) :
  scan_literal s = Some (v, rest) ->
  (String.length rest < String.length s)%nat.
Proof.
  unfold scan_literal. intros H.
  repeat match type of H with
  | context [strip_prefix ?p s] =>
      let E := fresh "E" in
      destruct (strip_prefix p s) eqn:E;
      [ apply strip_prefix_length in E; inversion H; subst; simpl in E; lia | ]
  end.
  discriminate.
Qed.

Lemma number_sign_length (s : string) (neg : bool) (s1 : string) :
  number_sign s = (neg, s1) -> (String.length s1 <= String.length s)%nat.
Proof.
  unfold number_sign. destruct s as [|c r]; intros H.
  - inversion H; subst; simpl; lia.
  - destruct (Ascii.eqb c "-"); inversion H; subst; simpl; lia.
Qed.

Lemma number_int_length (s : string) (i : Z) (r0 : string) :
  number_int s = Some (i, r0) -> (String.length r0 < String.length s)%nat.
Proof.
  unfold number_int. destruct s as [|c r]; [discriminate|].
  destruct (is_digit c) eqn:D; [|discriminate].
  destruct (Ascii.eqb c "0").
  - intros H; inversion H; subst; simpl; lia.
  - simpl. rewrite D.
    destruct (take_digits r _ _) as [[v n] rest] eqn:T.
    intros H; inversion H; subst.
    apply take_digits_length in T. simpl; lia.
Qed.

Lemma number_frac_length (s : string) (fd fn : Z) (r1 : string) :
  number_frac s = (fd, fn, r1) -> (String.length r1 <= String.length s)%nat.
Proof.
  unfold number_frac. intros H.
  destruct s as [|dot [|d r]]; try (inversion H; subst; simpl; lia).
  destruct (Ascii.eqb dot "." && is_digit d).
  - apply take_digits_length in H. simpl in *; lia.
  - inversion H; subst; simpl; lia.
Qed.

Lemma number_exp_length (s : string) (ex en : Z) (r2 : string) :
  number_exp s = (ex, en, r2) -> (String.length r2 <= String.length s)%nat.
Proof.
  unfold number_exp. intros H.
  destruct s as [|e r]; [inversion H; subst; simpl; lia|].
  destruct (Ascii.eqb e "e" || Ascii.eqb e "E"); [|inversion H; subst; simpl; lia].
  assert (L : forall sg r', 
             (String.length r' <= String.length r)%nat ->
             (let '(v, n, rest) := take_digits r' 0 0 in
              if 0 <? n then (sg * v, n, rest) else (0, 0, String e r))
             = (ex, en, r2) ->
             (String.length r2 <= String.length (String e r))%nat).
  { intros sg r' Hr. destruct (take_digits r' 0 0) as [[v n] rest] eqn:T.
    apply take_digits_length in T.
    destruct (0 <? n); intros K; inversion K; subst; simpl; lia. }
  destruct r as [|g t].
  - apply (L 1 ""); simpl; [lia|exact H].
  - destruct (Ascii.eqb g "-"); [apply (L (-1) t); [simpl; lia|exact H]|].
    destruct (Ascii.eqb g "+"); [apply (L 1 t); [simpl; lia|exact H]|].
    apply (L 1 (String g t)); [simpl; lia|exact H].
Qed.

Lemma scan_number_length (s : string) (v : value) (rest : string) :
  scan_number s = Parsed v rest ->
  (String.length rest < String.length s)%nat.
Proof.
  unfold scan_number.
  destruct (number_sign s) as [neg s1] eqn:S1.
  destruct (number_int s1) as [[i r0]|] eqn:I; [|discriminate].
  destruct (number_frac r0) as [[fd fn] r1] eqn:F.
  destruct (number_exp r1) as [[ex en] r2] eqn:X.
  apply number_sign_length in S1. apply number_int_length in I.
  apply number_frac_length in F. apply number_exp_length in X.
  destruct ((0 <? fn) || (0 <? en)); intros H; inversion H; subst; lia.
Qed.

Lemma scan_number_not_exhausted (s : string) : scan_number s <> Exhausted.
Proof.
  unfold scan_number.
  destruct (number_sign s) as [neg s1].
  destruct (number_int s1) as [[i r0]|]; [|discriminate].
  destruct (number_frac r0) as [[fd fn] r1].
  destruct (number_exp r1) as [[ex en] r2].
  destruct ((0 <? fn) || (0 <? en)); discriminate.
Qed.

Lemma scanstring_length_aux (n : nat) :
  forall s pending acc t rest,
    (String.length s <= n)%nat ->
    scanstring pending acc s = Some (t, rest) ->
    (String.length rest < String.length s)%nat.
Proof.
  induction n as [|n IH]; intros s pending acc t rest Hn H.
  - destruct s; simpl in *; [discriminate|lia].
  - destruct s as [|c r]; [discriminate|].
    simpl in H. simpl in Hn.
    destruct (Ascii.eqb c dquote).
    { inversion H; subst; simpl; lia. }
    destruct (Ascii.eqb c "\").
    + destruct r as [|e r1]; [discriminate|].
      destruct (Ascii.eqb e "u").
      * destruct r1 as [|h1 [|h2 [|h3 [|h4 r2]]]]; try discriminate.
        destruct (hex4 h1 h2 h3 h4) as [u|]; [|discriminate].
        assert (B : (String.length r2 <= n)%nat) by (simpl in Hn; lia).
        assert (G : forall p a, scanstring p a r2 = Some (t, rest) ->
                    (String.length rest
                     < String.length
                         (String c (String e (String h1 (String h2
                            (String h3 (String h4 r2)))))))%nat).
        { intros p a K. apply (IH _ _ _ _ _ B) in K. simpl; lia. }
        destruct pending as [h|].
        -- destruct (is_low_surrogate u); [eapply G; exact H|].
           destruct (is_high_surrogate u); eapply G; exact H.
        -- destruct (is_high_surrogate u); eapply G; exact H.
      * destruct (simple_escape e); [|discriminate].
        apply IH in H; simpl in *; lia.
    + destruct (N_of_ascii c <? 32)%N; [discriminate|].
      apply IH in H; simpl in *; lia.
Qed.

Lemma scanstring_length (s : string) pending acc t rest :
  scanstring pending acc s = Some (t, rest) ->
  (String.length rest < String.length s)%nat.
Proof. apply (scanstring_length_aux (String.length s)); lia. Qed.

Lemma skip_ws_cons_length (s : string) (c : ascii) (r : string) :
  skip_ws s = String c r -> (String.length r < String.length s)%nat.
Proof.
  intros H. pose proof (skip_ws_length s) as L. rewrite H in L.
  simpl in L. lia.
Qed.

Lemma scanner_consumes (fuel : nat) :
  (forall s v rest, scan_once fuel s = Parsed v rest ->
     (String.length rest < String.length s)%nat)
  /\ (forall s acc v rest, parse_array fuel s acc = Parsed v rest ->
        (String.length rest < String.length s)%nat)
  /\ (forall s acc v rest, parse_object fuel s acc = Parsed v rest ->
        (String.length rest < String.length s)%nat).
Proof.
  induction fuel as [|fuel (IHv & IHa & IHo)].
  - repeat split; intros; discriminate.
  - repeat split.
    + intros s v rest H. simpl in H.
      destruct s as [|c r]; [discriminate|].
      destruct (Ascii.eqb c dquote).
      { destruct (scanstring None "" r) as [[t rest']|] eqn:E; [|discriminate].
        inversion H; subst. apply scanstring_length in E. simpl; lia. }
      destruct (Ascii.eqb c "{").
      { destruct (skip_ws r) as [|c' r'] eqn:E; [discriminate|].
        pose proof (skip_ws_cons_length _ _ _ E) as L.
        destruct (Ascii.eqb c' "}").
        - inversion H; subst. simpl; lia.
        - apply IHo in H. simpl in *; lia. }
      destruct (Ascii.eqb c "[").
      { destruct (skip_ws r) as [|c' r'] eqn:E; [discriminate|].
        pose proof (skip_ws_cons_length _ _ _ E) as L.
        destruct (Ascii.eqb c' "]").
        - inversion H; subst. simpl; lia.
        - apply IHa in H. simpl in *; lia. }
      destruct (scan_literal (String c r)) as [[v' rest']|] eqn:E.
      * inversion H; subst. apply scan_literal_length in E. exact E.
      * apply scan_number_length in H. exact H.
    + intros s acc v rest H. simpl in H.
      destruct (scan_once fuel s) as [v0 rest0| |] eqn:E; try discriminate.
      apply IHv in E.
      destruct (skip_ws rest0) as [|c r] eqn:W; [discriminate|].
      pose proof (skip_ws_cons_length _ _ _ W) as L.
      destruct (Ascii.eqb c "]").
      * inversion H; subst. lia.
      * destruct (Ascii.eqb c ","); [|discriminate].
        apply IHa in H. pose proof (skip_ws_length r). lia.
    + intros s acc v rest H. simpl in H.
      destruct s as [|q r]; [discriminate|].
      destruct (Ascii.eqb q dquote); [|discriminate].
      destruct (scanstring None "" r) as [[key rest1]|] eqn:K; [|discriminate].
      apply scanstring_length in K.
      destruct (skip_ws rest1) as [|colon r2] eqn:W1; [discriminate|].
      pose proof (skip_ws_cons_length _ _ _ W1) as L1.
      destruct (Ascii.eqb colon ":"); [|discriminate].
      destruct (scan_once fuel (skip_ws r2)) as [v0 rest2| |] eqn:E;
        try discriminate.
      apply IHv in E. pose proof (skip_ws_length r2) as L2.
      destruct (skip_ws rest2) as [|c r3] eqn:W2; [discriminate|].
      pose proof (skip_ws_cons_length _ _ _ W2) as L3.
      destruct (Ascii.eqb c "}").
      * inversion H; subst. simpl; lia.
      * destruct (Ascii.eqb c ","); [|discriminate].
        apply IHo in H. pose proof (skip_ws_length r3). simpl; lia.
Qed.

Lemma scan_once_consumes (fuel : nat) (s : string) (v : value) (rest : string) :
  scan_once fuel s = Parsed v rest ->
  (String.length rest < String.length s)%nat.
Proof. apply (scanner_consumes fuel). Qed.

Lemma scanner_progress (fuel : nat) :
  (forall s, (2 * String.length s + 1 <= fuel)%nat ->
     scan_once fuel s <> Exhausted)
  /\ (forall s acc, (2 * String.length s + 2 <= fuel)%nat ->
        parse_array fuel s acc <> Exhausted)
  /\ (forall s acc, (2 * String.length s + 2 <= fuel)%nat ->
        parse_object fuel s acc <> Exhausted).
Proof.
  induction fuel as [|fuel (IHv & IHa & IHo)].
  - repeat split; intros; lia.
  - repeat split.
    + intros s B. simpl.
      destruct s as [|c r]; [discriminate|]. simpl in B.
      destruct (Ascii.eqb c dquote).
      { destruct (scanstring None "" r) as [[t rest']|]; discriminate. }
      destruct (Ascii.eqb c "{").
      { destruct (skip_ws r) as [|c' r'] eqn:E; [discriminate|].
        pose proof (skip_ws_cons_length _ _ _ E) as L.
        destruct (Ascii.eqb c' "}"); [discriminate|].
        apply IHo. simpl; lia. }
      destruct (Ascii.eqb c "[").
      { destruct (skip_ws r) as [|c' r'] eqn:E; [discriminate|].
        pose proof (skip_ws_cons_length _ _ _ E) as L.
        destruct (Ascii.eqb c' "]"); [discriminate|].
        apply IHa. simpl; lia. }
      destruct (scan_literal (String c r)) as [[v' rest']|]; [discriminate|].
      apply scan_number_not_exhausted.
    + intros s acc B. simpl.
      destruct (scan_once fuel s) as [v0 rest0| |] eqn:E.
      * apply scan_once_consumes in E.
        destruct (skip_ws rest0) as [|c r] eqn:W; [discriminate|].
        pose proof (skip_ws_cons_length _ _ _ W) as L.
        destruct (Ascii.eqb c "]"); [discriminate|].
        destruct (Ascii.eqb c ","); [|discriminate].
        apply IHa. pose proof (skip_ws_length r). lia.
      * discriminate.
      * exfalso. revert E. apply IHv. lia.
    + intros s acc B. simpl.
      destruct s as [|q r]; [discriminate|]. simpl in B.
      destruct (Ascii.eqb q dquote); [|discriminate].
      destruct (scanstring None "" r) as [[key rest1]|] eqn:K; [|discriminate].
      apply scanstring_length in K.
      destruct (skip_ws rest1) as [|colon r2] eqn:W1; [discriminate|].
      pose proof (skip_ws_cons_length _ _ _ W1) as L1.
      destruct (Ascii.eqb colon ":"); [|discriminate].
      pose proof (skip_ws_length r2) as L2.
      destruct (scan_once fuel (skip_ws r2)) as [v0 rest2| |] eqn:E.
      * apply scan_once_consumes in E.
        destruct (skip_ws rest2) as [|c r3] eqn:W2; [discriminate|].
        pose proof (skip_ws_cons_length _ _ _ W2) as L3.
        destruct (Ascii.eqb c "}"); [discriminate|].
        destruct (Ascii.eqb c ","); [|discriminate].
        apply IHo. pose proof (skip_ws_length r3). lia.
      * discriminate.
      * exfalso. revert E. apply IHv. lia.
Qed.

(** [json.loads] fails with a [JSONDecodeError] only: the recursion budget
    of the model is never the cause. *)
Lemma json_loads_error (s : str) (e : exn) :
  json_loads s = Err e -> e = json_decode_error.
Proof.
  unfold json_loads. intros H.
  destruct (scan_once (2 * String.length s + 2) (skip_ws s))
    as [v rest| |] eqn:E.
  - destruct (skip_ws rest); [discriminate|]. inversion H; reflexivity.
  - inversion H; reflexivity.
  - exfalso. revert E. apply (scanner_progress _).
    pose proof (skip_ws_length s). lia.
Qed.


Lemma bytes_decode_error (b : bytes) (e : exn) :
  bytes_decode b = Err e -> exn_cls e = UnicodeDecodeError.
Proof.
  unfold bytes_decode. destruct (utf8_scan 0 b) as [[[a z] r]|]; intros H.
  - inversion H; reflexivity.
  - discriminate.
Qed.

(** ** The console discipline of the callbacks *)

Lemma emits_nil (w : world) : emits w [] = w.
Proof. destruct w; unfold emits; simpl. rewrite app_nil_r. reflexivity. Qed.

Lemma emits_emits (w : world) (a b : list str) :
  emits (emits w a) b = emits w (a ++ b)%list.
Proof. unfold emits; simpl. rewrite app_assoc. reflexivity. Qed.

Lemma print_emits (s : str) (w : world) : print s w = (Returned tt, emits w [s]).
Proof. reflexivity. Qed.

Lemma console_ret {A} (a : A) : console_only (ret a).
Proof. exists (Returned a), []. intros w. rewrite emits_nil. reflexivity. Qed.

Lemma console_raise {A} (e : exn) : console_only (@raise A e).
Proof. exists (Raised e), []. intros w. rewrite emits_nil. reflexivity. Qed.

Lemma console_lift {A} (r : result A) : console_only (lift r).
Proof. destruct r; [apply console_ret | apply console_raise]. Qed.

Lemma console_print (s : str) : console_only (print s).
Proof. exists (Returned tt), [s]. intros w. reflexivity. Qed.

Lemma console_bind {A B} (m : Py A) (k : A -> Py B) :
  console_only m -> (forall a, console_only (k a)) -> console_only (bind m k).
Proof.
  intros (r & ls & Hm) Hk. destruct r as [a|e].
  - destruct (Hk a) as (r' & ls' & Hk'). exists r', (ls ++ ls')%list.
    intros w. unfold bind. rewrite Hm, Hk'. rewrite emits_emits. reflexivity.
  - exists (Raised e), ls. intros w. unfold bind. rewrite Hm. reflexivity.
Qed.

Lemma console_try {A} (body : Py A) (handler : exn -> Py A) :
  console_only body -> (forall e, console_only (handler e)) ->
  console_only (try_except body handler).
Proof.
  intros (r & ls & Hb) Hh. destruct r as [a|e].
  - exists (Returned a), ls. intros w. unfold try_except. rewrite Hb.
    reflexivity.
  - destruct (Hh e) as (r' & ls' & Hh'). exists r', (ls ++ ls')%list.
    intros w. unfold try_except. rewrite Hb, Hh'. rewrite emits_emits.
    reflexivity.
Qed.

Lemma console_get_field payload key default spec :
  console_only (get_field payload key default spec).
Proof.
  unfold get_field. apply console_bind; [apply console_lift|].
  intros v. apply console_lift.
Qed.

Ltac console :=
  repeat first
    [ apply console_print
    | apply console_lift
    | apply console_ret
    | apply console_raise
    | apply console_get_field
    | apply console_bind; [ | intro ] ].

Lemma console_dispatch_topic (topic : str) (payload : value) :
  console_only (dispatch_topic topic payload).
Proof.
  unfold dispatch_topic.
  repeat match goal with
  | |- console_only (if ?b then _ else _) => destruct b
  end;
  [ unfold data_branch | unfold iaq_branch | unfold status_branch
  | unfold alert_branch | unfold fallback_branch ]; console.
Qed.

Lemma console_print_all (ls : list str) : console_only (print_all ls).
Proof.
  induction ls as [|l ls IH]; simpl; [apply console_ret|].
  apply console_bind; [apply console_print | intros _; exact IH].
Qed.

Lemma console_on_message (timestamp topic : str) (raw : bytes) :
  console_only (on_message timestamp topic raw).
Proof.
  unfold on_message. apply console_try.
  - unfold on_message_try.
    apply console_bind; [apply console_lift | intros text].
    apply console_bind; [apply console_lift | intros payload].
    apply console_bind; [apply console_print_all | intros _].
    apply console_dispatch_topic.
  - intros e. unfold on_message_except.
    destruct (is_JSONDecodeError e); [console|].
    destruct (is_Exception e); console.
Qed.

Lemma print_all_emits (ls : list str) (w : world) :
  print_all ls w = (Returned tt, emits w ls).
Proof.
  revert w. induction ls as [|l ls IH]; intros w; simpl.
  - rewrite emits_nil. reflexivity.
  - unfold bind. rewrite print_emits, IH, emits_emits. reflexivity.
Qed.

(** The branch of a topic, seen from any world. *)
Lemma dispatch_topic_run (topic : str) (payload : value) (w : world) :
  dispatch_topic topic payload w
  = (fst (branch_result topic payload),
     emits w (snd (branch_result topic payload))).
Proof.
  destruct (console_dispatch_topic topic payload) as (r & ls & H).
  unfold branch_result. rewrite (H (mk_world [] [])), (H w). reflexivity.
Qed.

(** ** The exceptions a branch can raise *)

Lemma ordinary_lift {A} (r : result A) :
  fails_ordinary r -> raises_ordinary (lift r).
Proof.
  intros H w e w' K. destruct r as [a|e0]; [discriminate|].
  inversion K; subst. apply H. reflexivity.
Qed.

Lemma ordinary_print (s : str) : raises_ordinary (print s).
Proof. intros w e w' K. discriminate. Qed.

Lemma ordinary_bind {A B} (m : Py A) (k : A -> Py B) :
  raises_ordinary m -> (forall a, raises_ordinary (k a)) ->
  raises_ordinary (bind m k).
Proof.
  intros Hm Hk w e w' K. unfold bind in K.
  destruct (m w) as [[a|e0] w0] eqn:E.
  - eapply Hk; exact K.
  - inversion K; subst. eapply Hm; exact E.
Qed.

Lemma py_get_fails payload key default :
  fails_ordinary (py_get payload key default).
Proof.
  intros e H. destruct payload; inversion H; split; reflexivity.
Qed.

Lemma float_of_int_fails (z : Z) : fails_ordinary (float_of_int z).
Proof.
  intros e H. unfold float_of_int in H.
  destruct (binary_normalize prec emax z 0 false); inversion H;
    split; reflexivity.
Qed.

Lemma py_format_fails v spec : fails_ordinary (py_format v spec).
Proof.
  intros e H. destruct spec as [|p]; [discriminate|].
  destruct v as [|b|z|f|s|l|d]; simpl in H;
    try (inversion H; split; reflexivity).
  - destruct (float_of_int (if b then 1 else 0)) as [f|e0] eqn:E;
      inversion H; subst. eapply float_of_int_fails; exact E.
  - destruct (float_of_int z) as [f|e0] eqn:E;
      inversion H; subst. eapply float_of_int_fails; exact E.
Qed.

Lemma py_le_int_fails v z : fails_ordinary (py_le_int v z).
Proof.
  intros e H. destruct v; inversion H; split; reflexivity.
Qed.

Lemma iaq_indicator_fails score : fails_ordinary (iaq_indicator score).
Proof.
  intros e H. unfold iaq_indicator in H.
  repeat match type of H with
  | context [py_le_int score ?z] =>
      let E := fresh "E" in
      destruct (py_le_int score z) as [[|]|] eqn:E;
      [ | | inversion H; subst; eapply py_le_int_fails; exact E ]
  end; discriminate.
Qed.

Lemma ordinary_get_field payload key default spec :
  raises_ordinary (get_field payload key default spec).
Proof.
  unfold get_field. apply ordinary_bind.
  - apply ordinary_lift, py_get_fails.
  - intros v. apply ordinary_lift, py_format_fails.
Qed.

Ltac ordinary_steps :=
  repeat first
    [ apply ordinary_print
    | apply ordinary_get_field
    | apply ordinary_lift;
      first [ apply py_get_fails | apply py_format_fails
            | apply iaq_indicator_fails ]
    | apply ordinary_bind; [ | intro ] ].

Lemma ordinary_dispatch_topic (topic : str) (payload : value) :
  raises_ordinary (dispatch_topic topic payload).
Proof.
  unfold dispatch_topic.
  repeat match goal with
  | |- raises_ordinary (if ?b then _ else _) => destruct b
  end;
  [ unfold data_branch | unfold iaq_branch | unfold status_branch
  | unfold alert_branch | unfold fallback_branch ]; ordinary_steps.
Qed.

Lemma branch_result_raised (topic : str) (payload : value) (e : exn)
    (ls : list str) :
  branch_result topic payload = (Raised e, ls) -> ordinary e.
Proof.
  unfold branch_result.
  destruct (dispatch_topic topic payload (mk_world [] [])) as [r w] eqn:E.
  intros H. inversion H; subst.
  eapply ordinary_dispatch_topic; exact E.
Qed.

(** ** What one call prints *)

Ltac py_red := cbv beta iota delta [bind lift ret raise].

Lemma on_message_decoded (timestamp topic : str) (raw : bytes) (text : str)
    (payload : value) (w : world) :
  bytes_decode raw = Ok text -> json_loads text = Ok payload ->
  on_message_try timestamp topic raw w
  = (fst (branch_result topic payload),
     emits w (header timestamp topic ++ snd (branch_result topic payload))).
Proof.
  intros D J. unfold on_message_try. rewrite D. py_red. rewrite J. py_red.
  rewrite print_all_emits, dispatch_topic_run, emits_emits. reflexivity.
Qed.

(** The payload is not UTF-8: the second [except] clause reports it. *)
Lemma on_message_undecodable (timestamp topic : str) (raw : bytes) (e : exn)
    (w : world) :
  bytes_decode raw = Err e ->
  on_message timestamp topic raw w = (Returned tt, emits w [error_line e]).
Proof.
  intros D. unfold on_message, try_except, on_message_try.
  rewrite D. py_red. unfold on_message_except, is_JSONDecodeError, is_Exception.
  rewrite (bytes_decode_error _ _ D). reflexivity.
Qed.

(** The text is not JSON: the first [except] clause prints it back. *)
Lemma on_message_malformed (timestamp topic : str) (raw : bytes) (text : str)
    (e : exn) (w : world) :
  bytes_decode raw = Ok text -> json_loads text = Err e ->
  on_message timestamp topic raw w
  = (Returned tt, emits w ["Raw message: " ++ text]).
Proof.
  intros D J. unfold on_message, try_except, on_message_try.
  rewrite D. py_red. rewrite J. py_red.
  rewrite (json_loads_error _ _ J). unfold on_message_except.
  change (is_JSONDecodeError json_decode_error) with true. cbv iota.
  rewrite D. reflexivity.
Qed.

(** The branch ran to its end. *)
Lemma on_message_returned (timestamp topic : str) (raw : bytes) (text : str)
    (payload : value) (ls : list str) (w : world) :
  bytes_decode raw = Ok text -> json_loads text = Ok payload ->
  branch_result topic payload = (Returned tt, ls) ->
  on_message timestamp topic raw w
  = (Returned tt, emits w (header timestamp topic ++ ls)).
Proof.
  intros D J B. unfold on_message, try_except.
  rewrite (on_message_decoded _ _ _ _ _ _ D J), B. reflexivity.
Qed.

(** The branch raised after printing [ls]: the second [except] clause adds
    one line. *)
Lemma on_message_raised (timestamp topic : str) (raw : bytes) (text : str)
    (payload : value) (e : exn) (ls : list str) (w : world) :
  bytes_decode raw = Ok text -> json_loads text = Ok payload ->
  branch_result topic payload = (Raised e, ls) ->
  on_message timestamp topic raw w
  = (Returned tt, emits w (header timestamp topic ++ ls ++ [error_line e])).
Proof.
  intros D J B. unfold on_message, try_except.
  rewrite (on_message_decoded _ _ _ _ _ _ D J), B. simpl fst. simpl snd.
  destruct (branch_result_raised _ _ _ _ B) as [X Y].
  unfold on_message_except. rewrite Y, X.
  rewrite print_emits, emits_emits, <- app_assoc. reflexivity.
Qed.

(** Every call returns, and what it prints is fixed by its arguments. *)
Lemma on_message_run (timestamp topic : str) (raw : bytes) (w : world) :
  on_message timestamp topic raw w
  = (Returned tt, emits w (report timestamp topic raw)).
Proof.
  assert (H : forall w0, exists ls,
             on_message timestamp topic raw w0 = (Returned tt, emits w0 ls)).
  { intros w0. destruct (bytes_decode raw) as [text|e] eqn:D.
    - destruct (json_loads text) as [payload|e] eqn:J.
      + destruct (branch_result topic payload) as [[[]|e] ls] eqn:B.
        * eexists. eapply on_message_returned; eassumption.
        * eexists. eapply on_message_raised; eassumption.
      + eexists. eapply on_message_malformed; eassumption.
    - eexists. eapply on_message_undecodable; eassumption. }
  destruct (console_on_message timestamp topic raw) as (r & ls & C).
  destruct (H w) as (ls' & Hw). rewrite C in Hw. inversion Hw; subst.
  unfold report. rewrite !C. simpl. reflexivity.
Qed.

(** ** The branches *)

Ltac py_run :=
  cbv beta iota delta
    [bind lift ret raise print get_field py_get topics stdout].

Lemma dispatch_by_category (topic : str) (payload : value) :
  dispatch_topic topic payload = branch_of (categoryOf topic) payload.
Proof.
  unfold dispatch_topic, categoryOf.
  repeat match goal with
  | |- context [if ?b then _ else _] => destruct b
  end; reflexivity.
Qed.

Lemma categoryOf_unregistered (topic : str) :
  ~ In topic (map fst TOPICS) -> categoryOf topic = Unknown.
Proof.
  intros H. unfold categoryOf.
  repeat match goal with
  | |- context [String.eqb topic ?t] =>
      let E := fresh "E" in
      destruct (String.eqb topic t) eqn:E;
      [ exfalso; apply H; apply String.eqb_eq in E; subst topic;
        simpl; tauto | ]
  end.
  reflexivity.
Qed.

Lemma branch_result_by_category (topic : str) (payload : value) :
  branch_result topic payload
  = (let '(r, w) := branch_of (categoryOf topic) payload (mk_world [] []) in
     (r, stdout w)).
Proof. unfold branch_result. rewrite dispatch_by_category. reflexivity. Qed.

Lemma py_format_plain (v : value) : py_format v Plain = Ok (py_str v).
Proof. reflexivity. Qed.

(** The defect behind the unavailable numeric fields: the default is a
    str, and a str rejects the format code [f]. *)
Lemma py_format_NA (p : nat) :
  py_format NA (Fixed p)
  = Err (mk_exn ValueError "Unknown format code 'f' for object of type 'str'").
Proof. reflexivity. Qed.


Lemma status_result (d : list (str * value)) :
  let status := get_or d "status" (VStr "unknown") in
  let client_id := get_or d "client_id" (VStr "unknown") in
  branch_result "sensor/bme680/status" (VDict d)
  = (Returned tt,
     [ status_icon status ++ " Status: " ++ py_str status;
       "📟 Client ID: " ++ py_str client_id ]).
Proof. reflexivity. Qed.



Ltac data_run d :=
  unfold branch_result;
  change (dispatch_topic "sensor/bme680/data" (VDict d))
    with (data_branch (VDict d));
  unfold data_branch; py_run.

Ltac iaq_run d :=
  unfold branch_result;
  change (dispatch_topic "sensor/bme680/iaq" (VDict d))
    with (iaq_branch (VDict d));
  unfold iaq_branch; py_run.

(** Case split on the next replacement field that is still symbolic. *)
Ltac split_format :=
  match goal with
  | |- context [py_format (match dict_lookup ?k ?d with
                           | Some v => v
                           | None => ?x
                           end) ?sp] =>
      destruct (py_format (match dict_lookup k d with
                           | Some v => v
                           | None => x
                           end) sp)
  end.

(** All five fields of a data document render. *)
Lemma data_result_ok (d : list (str * value)) (s1 s2 s3 s4 : str) :
  py_format (get_or d "temperature" NA) (Fixed 2) = Ok s1 ->
  py_format (get_or d "humidity" NA) (Fixed 2) = Ok s2 ->
  py_format (get_or d "pressure" NA) (Fixed 2) = Ok s3 ->
  py_format (get_or d "gas_resistance" NA) (Fixed 0) = Ok s4 ->
  branch_result "sensor/bme680/data" (VDict d)
  = (Returned tt,
     [ "🌡️  Temperature  : " ++ s1 ++ " °C";
       "💧 Humidity     : " ++ s2 ++ " %";
       "🔵 Pressure     : " ++ s3 ++ " hPa";
       "💨 Gas Resist.  : " ++ s4 ++ " Ohms";
       "✓  Gas Valid    : " ++ py_str (get_or d "gas_valid" NA) ]).
Proof.
  unfold get_or, NA. intros H1 H2 H3 H4. data_run d.
  rewrite H1. cbv iota beta. rewrite H2. cbv iota beta.
  rewrite H3. cbv iota beta. rewrite H4. reflexivity.
Qed.

(** A data document that lacks one of the four formatted fields never
    reaches the end of the branch: the call raises at that field or
    before, with fewer than four lines printed. *)
Lemma data_absent_raises (d : list (str * value)) (key : str) :
  In key ["temperature"; "humidity"; "pressure"; "gas_resistance"] ->
  dict_lookup key d = None ->
  exists e ls,
    branch_result "sensor/bme680/data" (VDict d) = (Raised e, ls)
    /\ (List.length ls < 4)%nat.
Proof.
  intros K H. simpl in K.
  destruct K as [K|[K|[K|[K|[]]]]]; subst key; data_run d; rewrite H;
    change (VStr "N/A") with NA; rewrite py_format_NA; cbv iota beta;
    repeat first
      [ split_format; cbv iota beta
      | (do 2 eexists; split; [reflexivity | simpl; lia]) ].
Qed.

(** ** Ordering of numbers and the tier chain *)

Lemma float_le_int_spec (f : spec_float) (q : Q) (z : Z) :
  float_value f = Some q ->
  (float_le_int f z = true <-> (q <= inject_Z z)%Q).
Proof.
  destruct f as [s|s| |s m e]; simpl; intros H; try discriminate.
  - inversion H; subst. unfold Qle; simpl. rewrite Z.leb_le. lia.
  - inversion H; subst; clear H.
    destruct (0 <=? e) eqn:E.
    + rewrite Z.leb_le. rewrite <- Zle_Qle. reflexivity.
    + apply Z.leb_gt in E.
      assert (P : 0 < 2 ^ (- e)) by (apply Z.pow_pos_nonneg; lia).
      rewrite Z.leb_le. unfold Qle; simpl.
      rewrite Z2Pos.id by exact P. lia.
Qed.

Lemma py_le_int_numeric (v : value) (q : Q) (z : Z) :
  numeric_value v = Some q ->
  exists b, py_le_int v z = Ok b /\ (b = true <-> (q <= inject_Z z)%Q).
Proof.
  destruct v as [|b|x|f|s|l|d]; simpl; intros H; try discriminate.
  - inversion H; subst. eexists; split; [reflexivity|].
    rewrite Z.leb_le. rewrite <- Zle_Qle. reflexivity.
  - eexists; split; [reflexivity|]. apply float_le_int_spec; exact H.
Qed.

(** The four arms of the chain, by the position of the score. *)
Lemma iaq_indicator_numeric (score : value) (q : Q) :
  numeric_value score = Some q ->
  ((q <= 50)%Q -> iaq_indicator score = Ok tier1)
  /\ ((50 < q)%Q /\ (q <= 100)%Q -> iaq_indicator score = Ok tier2)
  /\ ((100 < q)%Q /\ (q <= 150)%Q -> iaq_indicator score = Ok tier3)
  /\ ((150 < q)%Q -> iaq_indicator score = Ok tier4).
Proof.
  intros H.
  destruct (py_le_int_numeric score q 50 H) as (b1 & E1 & S1).
  destruct (py_le_int_numeric score q 100 H) as (b2 & E2 & S2).
  destruct (py_le_int_numeric score q 150 H) as (b3 & E3 & S3).
  unfold iaq_indicator. rewrite E1, E2, E3.
  change (inject_Z 50) with 50%Q in S1.
  change (inject_Z 100) with 100%Q in S2.
  change (inject_Z 150) with 150%Q in S3.
  assert (N : forall (b : bool) (P : Prop), (b = true <-> P) -> ~ P -> b = false).
  { intros b P [F _] NP. destruct b; [exfalso; auto | reflexivity]. }
  repeat split.
  - intros L. apply S1 in L. rewrite L. reflexivity.
  - intros [L1 L2]. rewrite (N _ _ S1) by lra.
    apply S2 in L2. rewrite L2. reflexivity.
  - intros [L1 L2]. rewrite (N _ _ S1), (N _ _ S2) by lra.
    apply S3 in L2. rewrite L2. reflexivity.
  - intros L. rewrite (N _ _ S1), (N _ _ S2), (N _ _ S3) by lra.
    reflexivity.
Qed.

(** The first three lines of an air-quality document; what follows
    depends on how [co2_equivalent] and [voc_equivalent] format. *)
Lemma iaq_result_prefix (d : list (str * value)) (tier s : str) :
  iaq_indicator (get_or d "iaq_score" (VInt 0)) = Ok tier ->
  py_format (get_or d "iaq_score" (VInt 0)) (Fixed 1) = Ok s ->
  exists r rest,
    branch_result "sensor/bme680/iaq" (VDict d)
    = (r,
       (tier ++ " IAQ Score    : " ++ s ++ " ["
          ++ py_str (get_or d "iaq_text" (VStr "Unknown")) ++ "]")
       :: ("🔢 IAQ Level    : " ++ py_str (get_or d "iaq_level" NA))
       :: ("🎯 Accuracy     : " ++ py_str (get_or d "accuracy" NA))
       :: rest).
Proof.
  unfold get_or, NA. intros T F. iaq_run d.
  rewrite T. cbv iota beta. rewrite F. cbv iota beta.
  rewrite !py_format_plain. cbv iota beta.
  repeat first
    [ split_format; cbv iota beta
    | (do 2 eexists; reflexivity) ].
Qed.

(** The whole report of an air-quality document whose formatted fields
    all render. *)
Lemma iaq_result_ok (d : list (str * value)) (tier s c v : str) :
  iaq_indicator (get_or d "iaq_score" (VInt 0)) = Ok tier ->
  py_format (get_or d "iaq_score" (VInt 0)) (Fixed 1) = Ok s ->
  py_format (get_or d "co2_equivalent" NA) (Fixed 0) = Ok c ->
  py_format (get_or d "voc_equivalent" NA) (Fixed 2) = Ok v ->
  branch_result "sensor/bme680/iaq" (VDict d)
  = (Returned tt,
     [ tier ++ " IAQ Score    : " ++ s ++ " ["
         ++ py_str (get_or d "iaq_text" (VStr "Unknown")) ++ "]";
       "🔢 IAQ Level    : " ++ py_str (get_or d "iaq_level" NA);
       "🎯 Accuracy     : " ++ py_str (get_or d "accuracy" NA);
       "🌫️  CO2 Equiv.   : " ++ c ++ " ppm";
       "🧪 VOC Equiv.   : " ++ v ++ " ppm";
       "✓  Calibrated   : " ++ py_str (get_or d "is_calibrated" NA) ]).
Proof.
  unfold get_or, NA. intros T F C V. iaq_run d.
  rewrite T. cbv iota beta. rewrite F. cbv iota beta.
  rewrite !py_format_plain. cbv iota beta.
  rewrite C. cbv iota beta. rewrite V. reflexivity.
Qed.

Lemma get_or_absent (d : list (str * value)) (key : str) (default : value) :
  dict_lookup key d = None -> get_or d key default = default.
Proof. unfold get_or. intros H. rewrite H. reflexivity. Qed.

Lemma get_or_present (d : list (str * value)) (key : str) (default v : value) :
  dict_lookup key d = Some v -> get_or d key default = v.
Proof. unfold get_or. intros H. rewrite H. reflexivity. Qed.

(** ** The receive loop *)

Lemma listen_run (ms : list delivery) (w : world) :
  listen ms w
  = (Returned tt,
     emits w (flat_map (fun m => report (fst (fst m)) (snd (fst m)) (snd m)) ms)).
Proof.
  revert w. induction ms as [|[[timestamp topic] raw] ms IH]; intros w.
  - simpl. rewrite emits_nil. reflexivity.
  - simpl listen. unfold bind. rewrite on_message_run, IH, emits_emits.
    reflexivity.
Qed.

Lemma field_text_get_or (d : list (str * value)) (key : str) :
  py_str (get_or d key NA) = field_text d key.
Proof. unfold get_or, field_text. destruct (dict_lookup key d); reflexivity. Qed.

(** The validity flag of a data document is printed without a format code,
    so this one field does render the marker when it is absent. *)
Lemma data_gas_valid_line (d : list (str * value)) (s1 s2 s3 s4 : str) :
  py_format (get_or d "temperature" NA) (Fixed 2) = Ok s1 ->
  py_format (get_or d "humidity" NA) (Fixed 2) = Ok s2 ->
  py_format (get_or d "pressure" NA) (Fixed 2) = Ok s3 ->
  py_format (get_or d "gas_resistance" NA) (Fixed 0) = Ok s4 ->
  dict_lookup "gas_valid" d = None ->
  exists ls,
    branch_result "sensor/bme680/data" (VDict d)
    = (Returned tt, (ls ++ ["✓  Gas Valid    : N/A"])%list).
Proof.
  intros H1 H2 H3 H4 G.
  rewrite (data_result_ok d s1 s2 s3 s4 H1 H2 H3 H4).
  rewrite (get_or_absent _ _ _ G).
  exists [ "🌡️  Temperature  : " ++ s1 ++ " °C";
           "💧 Humidity     : " ++ s2 ++ " %";
           "🔵 Pressure     : " ++ s3 ++ " hPa";
           "💨 Gas Resist.  : " ++ s4 ++ " Ohms" ].
  reflexivity.
Qed.

(** ** The claims *)

(** C1 (the code departs from the claim).  A data document without
    [humidity]: the line is not rendered with the marker; formatting the
    default raises, and the call prints the temperature line and then the
    processing-error line. *)
Theorem data_missing_humidity_fails (timestamp : str) (w : world) :
  on_message timestamp "sensor/bme680/data" data_without_humidity w
  = (Returned tt,
     emits w
       (header timestamp "sensor/bme680/data"
        ++ [ "🌡️  Temperature  : 21.50 °C";
             "Error processing message: Unknown format code 'f' for object of type 'str'" ])).
Proof.
  assert (D : bytes_decode data_without_humidity = Ok data_without_humidity)
    by (vm_compute; reflexivity).
  assert (J : json_loads data_without_humidity
              = Ok (decoded data_without_humidity))
    by (vm_compute; reflexivity).
  assert (B : branch_result "sensor/bme680/data" (decoded data_without_humidity)
              = (Raised (mk_exn ValueError
                           "Unknown format code 'f' for object of type 'str'"),
                 ["🌡️  Temperature  : 21.50 °C"]))
    by (vm_compute; reflexivity).
  rewrite (on_message_raised timestamp _ _ _ _ _ _ w D J B). reflexivity.
Qed.

(** C2, as amended.  An air-quality document without [iaq_score]: the
    score is taken as 0, which selects tier 1, and the score line shows
    [0.0]; the level and accuracy lines show the value's text, or the
    marker when the key is absent. *)
Theorem iaq_missing_score_defaults (timestamp : str) (raw : bytes) (text : str)
    (d : list (str * value)) (w : world) :
  bytes_decode raw = Ok text ->
  json_loads text = Ok (VDict d) ->
  dict_lookup "iaq_score" d = None ->
  iaq_indicator (get_or d "iaq_score" (VInt 0)) = Ok tier1
  /\ exists rest,
       on_message timestamp "sensor/bme680/iaq" raw w
       = (Returned tt,
          emits w
            (header timestamp "sensor/bme680/iaq"
             ++ (tier1 ++ " IAQ Score    : 0.0 ["
                   ++ py_str (get_or d "iaq_text" (VStr "Unknown")) ++ "]")%string
                :: ("🔢 IAQ Level    : " ++ field_text d "iaq_level")%string
                :: ("🎯 Accuracy     : " ++ field_text d "accuracy")%string
                :: rest)).
Proof.
  intros D J S.
  assert (T : iaq_indicator (get_or d "iaq_score" (VInt 0)) = Ok tier1)
    by (rewrite (get_or_absent _ _ _ S); reflexivity).
  assert (F : py_format (get_or d "iaq_score" (VInt 0)) (Fixed 1) = Ok "0.0")
    by (rewrite (get_or_absent _ _ _ S); vm_compute; reflexivity).
  split; [exact T|].
  destruct (iaq_result_prefix d tier1 "0.0" T F) as (r & rest & B).
  rewrite !field_text_get_or in B.
  destruct r as [[]|e].
  - exists rest. apply (on_message_returned _ _ _ _ _ _ _ D J B).
  - exists (rest ++ [error_line e])%list.
    rewrite (on_message_raised _ _ _ _ _ _ _ _ D J B). reflexivity.
Qed.

(** C3.  The tier chain is inclusive at each threshold: a score of at most
    50 selects tier 1, above 50 and at most 100 tier 2, above 100 and at
    most 150 tier 3, above 150 tier 4; the scores 50, 51, 100, 101, 150
    and 151 select tiers 1, 2, 2, 3, 3 and 4. *)
Theorem iaq_tier_thresholds (score : value) (q : Q) :
  numeric_value score = Some q ->
  (((q <= 50)%Q -> iaq_indicator score = Ok tier1)
   /\ ((50 < q)%Q /\ (q <= 100)%Q -> iaq_indicator score = Ok tier2)
   /\ ((100 < q)%Q /\ (q <= 150)%Q -> iaq_indicator score = Ok tier3)
   /\ ((150 < q)%Q -> iaq_indicator score = Ok tier4))
  /\ map (fun s => iaq_indicator (VInt s)) [50; 51; 100; 101; 150; 151]
     = map Ok [tier1; tier2; tier2; tier3; tier3; tier4].
Proof.
  intros H. split.
  - apply iaq_indicator_numeric; exact H.
  - reflexivity.
Qed.

(** C4, as amended.  When the branch of a decoded message raises, the
    exception is caught and nothing leaves the call; the call has printed
    the three header lines and the field lines that preceded the failure,
    and it ends with exactly one processing-error line that carries the
    error description. *)
Theorem field_error_reported (timestamp topic : str) (raw : bytes) (text : str)
    (payload : value) (e : exn) (ls : list str) (w : world) :
  bytes_decode raw = Ok text ->
  json_loads text = Ok payload ->
  branch_result topic payload = (Raised e, ls) ->
  on_message timestamp topic raw w
  = (Returned tt,
     emits w
       (header timestamp topic ++ ls
        ++ [("Error processing message: " ++ exn_str e)%string])).
Proof. intros D J B. apply (on_message_raised _ _ _ _ _ _ _ _ D J B). Qed.


(** C6.  For every topic and every byte payload the call returns
    normally: no exception leaves [on_message]; all it does is print. *)
Theorem on_message_never_raises (timestamp topic : str) (raw : bytes)
    (w : world) :
  exists ls, on_message timestamp topic raw w = (Returned tt, emits w ls).
Proof. exists (report timestamp topic raw). apply on_message_run. Qed.


(** C8.  A status document: the status [online] selects the positive
    marker, every other value the negative one, and the report is the
    status line and the client line. *)
Theorem status_marker (timestamp : str) (raw : bytes) (text : str)
    (d : list (str * value)) (w : world) :
  bytes_decode raw = Ok text ->
  json_loads text = Ok (VDict d) ->
  let status := get_or d "status" (VStr "unknown") in
  let client_id := get_or d "client_id" (VStr "unknown") in
  on_message timestamp "sensor/bme680/status" raw w
  = (Returned tt,
     emits w
       (header timestamp "sensor/bme680/status"
        ++ [ (status_icon status ++ " Status: " ++ py_str status)%string;
             ("📟 Client ID: " ++ py_str client_id)%string ]))
  /\ (status = VStr "online" -> status_icon status = positive_marker)
  /\ (status <> VStr "online" -> status_icon status = negative_marker).
Proof.
  intros D J status client_id. repeat split.
  - apply (on_message_returned _ _ _ _ _ _ _ D J (status_result d)).
  - intros E. rewrite E. reflexivity.
  - intros N. unfold status_icon, py_eq_str.
    destruct status as [|b|z|f|s|l|d']; try reflexivity.
    destruct (String.eqb s "online") eqn:E; [|reflexivity].
    apply String.eqb_eq in E. subst s. exfalso. apply N. reflexivity.
Qed.

(** C9.  After any sequence of earlier deliveries and from any console,
    a delivery returns and appends exactly [report timestamp topic raw],
    which is a function of the delivery alone; the module's topic list is
    left as it was. *)
Theorem dispatch_stateless (before : list delivery) (timestamp topic : str)
    (raw : bytes) (w : world) :
  listen (before ++ [(timestamp, topic, raw)]) w
  = (Returned tt,
     emits (snd (listen before w)) (report timestamp topic raw))
  /\ topics (snd (listen (before ++ [(timestamp, topic, raw)]) w)) = topics w.
Proof.
  rewrite !listen_run. simpl snd. split.
  - rewrite flat_map_app. simpl flat_map. rewrite app_nil_r.
    rewrite emits_emits. reflexivity.
  - reflexivity.
Qed.

(** C10.  A status document without [status] or without [client_id]: the
    absent field is printed as [unknown], an absent status selects the
    negative marker, and the call returns. *)
Theorem status_defaults (timestamp : str) (raw : bytes) (text : str)
    (d : list (str * value)) (w : world) :
  bytes_decode raw = Ok text ->
  json_loads text = Ok (VDict d) ->
  (dict_lookup "status" d = None ->
   on_message timestamp "sensor/bme680/status" raw w
   = (Returned tt,
      emits w
        (header timestamp "sensor/bme680/status"
         ++ [ (negative_marker ++ " Status: unknown")%string;
              ("📟 Client ID: "
                 ++ py_str (get_or d "client_id" (VStr "unknown")))%string ])))
  /\ (dict_lookup "client_id" d = None ->
      on_message timestamp "sensor/bme680/status" raw w
      = (Returned tt,
         emits w
           (header timestamp "sensor/bme680/status"
            ++ [ (status_icon (get_or d "status" (VStr "unknown"))
                    ++ " Status: "
                    ++ py_str (get_or d "status" (VStr "unknown")))%string;
                 "📟 Client ID: unknown" ]))).
Proof.
  intros D J.
  pose proof (on_message_returned timestamp _ _ _ _ _ w D J (status_result d))
    as R.
  split; intros A; rewrite R; rewrite (get_or_absent _ _ _ A); reflexivity.
Qed.

(** ** Further properties of [on_message] *)

Lemma emits_inj (w : world) (a b : list str) : emits w a = emits w b -> a = b.
Proof.
  unfold emits. intros H. inversion H as [K].
  apply app_inv_head in K. exact K.
Qed.

Lemma report_of_run (timestamp topic : str) (raw : bytes) (ls : list str)
    (w : world) :
  on_message timestamp topic raw w = (Returned tt, emits w ls) ->
  report timestamp topic raw = ls.
Proof.
  intros H. rewrite on_message_run in H. inversion H as [K].
  apply app_inv_head in K. exact K.
Qed.

(** The format code [f] accepts exactly the formattable values. *)
Lemma py_format_fixed_ok (v : value) (p : nat) :
  formattable v = true -> exists s, py_format v (Fixed p) = Ok s.
Proof.
  destruct v as [|b|z|f|s|l|d]; simpl; intros H; try discriminate.
  - destruct (float_of_int (if b then 1 else 0)) as [f|e] eqn:E;
      [eexists; reflexivity|].
    exfalso. destruct b; vm_compute in E; discriminate.
  - destruct (float_of_int z); [eexists; reflexivity | discriminate].
  - eexists; reflexivity.
Qed.

Lemma py_format_fixed_err (v : value) (p : nat) :
  formattable v = false -> exists e, py_format v (Fixed p) = Err e.
Proof.
  destruct v as [|b|z|f|s|l|d]; simpl; intros H; try discriminate;
    try (eexists; reflexivity).
  destruct (float_of_int z); [discriminate | eexists; reflexivity].
Qed.

Lemma has_number_get_or (d : list (str * value)) (key : str) :
  has_number d key = formattable (get_or d key NA).
Proof. unfold has_number, get_or. destruct (dict_lookup key d); reflexivity. Qed.

Lemma formattable_is_number (v : value) :
  formattable v = true -> is_number v = true.
Proof. destruct v; simpl; intros H; try discriminate; reflexivity. Qed.

Lemma iaq_indicator_number (v : value) :
  is_number v = true ->
  exists i, (i < 4)%nat
    /\ iaq_indicator v = Ok (nth i [tier1; tier2; tier3; tier4] "").
Proof.
  intros H. unfold iaq_indicator.
  assert (E : forall z, exists b, py_le_int v z = Ok b)
    by (intros z; destruct v; try discriminate; eexists; reflexivity).
  destruct (E 50) as [b1 E1], (E 100) as [b2 E2], (E 150) as [b3 E3].
  rewrite E1, E2, E3.
  destruct b1; [exists 0%nat; split; [lia | reflexivity]|].
  destruct b2; [exists 1%nat; split; [lia | reflexivity]|].
  destruct b3; [exists 2%nat; split; [lia | reflexivity]|].
  exists 3%nat; split; [lia | reflexivity].
Qed.

Lemma iaq_indicator_not_number (v : value) :
  is_number v = false ->
  iaq_indicator v
  = Err (mk_exn TypeError
           ("'<=' not supported between instances of '" ++ type_name v
            ++ "' and 'int'")).
Proof. destruct v; simpl; intros H; try discriminate; reflexivity. Qed.

(** Case split on the next result that is still symbolic, keeping the
    equation. *)
Ltac split_result :=
  match goal with
  | |- context [py_format (match dict_lookup ?k ?d with
                           | Some v => v
                           | None => ?x
                           end) ?sp] =>
      let E := fresh "E" in
      destruct (py_format (match dict_lookup k d with
                           | Some v => v
                           | None => x
                           end) sp) eqn:E
  | |- context [iaq_indicator ?v] =>
      let E := fresh "E" in destruct (iaq_indicator v) eqn:E
  end; cbv iota beta.

(** X1.  A payload that is not UTF-8: the report is one processing-error
    line with the codec's message; neither the header nor the raw payload
    is printed. *)
Theorem undecodable_payload_reported (timestamp topic : str) (raw : bytes)
    (e : exn) (w : world) :
  bytes_decode raw = Err e ->
  on_message timestamp topic raw w
  = (Returned tt, emits w [("Error processing message: " ++ exn_str e)%string])
  /\ String.prefix "'utf-8' codec can't decode byte" (exn_str e) = true.
Proof.
  intros D. split.
  - apply (on_message_undecodable _ _ _ _ _ D).
  - unfold bytes_decode in D.
    destruct (utf8_scan 0 raw) as [[[start stop] reason]|]; [|discriminate].
    inversion D; subst. unfold unicode_decode_error, exn_str. simpl exn_msg.
    destruct (stop =? start + 1)%N; reflexivity.
Qed.


(** X3.  A data document yields the full five-line report exactly when
    its four formatted fields are present and hold formattable numbers;
    otherwise the call stops at the first field that is not, with fewer
    than four field lines before the error line. *)
Theorem data_report_dichotomy (timestamp : str) (raw : bytes) (text : str)
    (d : list (str * value)) (w : world) :
  bytes_decode raw = Ok text ->
  json_loads text = Ok (VDict d) ->
  let numeric :=
    forallb (has_number d)
      ["temperature"; "humidity"; "pressure"; "gas_resistance"] in
  (numeric = true ->
   exists s1 s2 s3 s4,
     on_message timestamp "sensor/bme680/data" raw w
     = (Returned tt,
        emits w
          (header timestamp "sensor/bme680/data"
           ++ [ ("🌡️  Temperature  : " ++ s1 ++ " °C")%string;
                ("💧 Humidity     : " ++ s2 ++ " %")%string;
                ("🔵 Pressure     : " ++ s3 ++ " hPa")%string;
                ("💨 Gas Resist.  : " ++ s4 ++ " Ohms")%string;
                ("✓  Gas Valid    : " ++ field_text d "gas_valid")%string ])))
  /\ (numeric = false ->
      exists e ls,
        (List.length ls < 4)%nat
        /\ on_message timestamp "sensor/bme680/data" raw w
           = (Returned tt,
              emits w
                (header timestamp "sensor/bme680/data" ++ ls
                 ++ [("Error processing message: " ++ exn_str e)%string]))).
Proof.
  intros D J numeric. subst numeric. simpl forallb.
  rewrite !has_number_get_or, andb_true_r. split.
  - intros H.
    apply andb_prop in H; destruct H as [H1 H].
    apply andb_prop in H; destruct H as [H2 H].
    apply andb_prop in H; destruct H as [H3 H4].
    destruct (py_format_fixed_ok _ 2 H1) as [s1 F1].
    destruct (py_format_fixed_ok _ 2 H2) as [s2 F2].
    destruct (py_format_fixed_ok _ 2 H3) as [s3 F3].
    destruct (py_format_fixed_ok _ 0 H4) as [s4 F4].
    exists s1, s2, s3, s4.
    rewrite (on_message_returned _ _ _ _ _ _ w D J
               (data_result_ok d s1 s2 s3 s4 F1 F2 F3 F4)).
    rewrite field_text_get_or. reflexivity.
  - intros H.
    assert (B : exists e ls,
               (List.length ls < 4)%nat
               /\ branch_result "sensor/bme680/data" (VDict d) = (Raised e, ls)).
    { assert (K : forall v p s,
                 py_format v (Fixed p) = Ok s -> formattable v = true).
      { intros v p s F. destruct (formattable v) eqn:G; [reflexivity|].
        destruct (py_format_fixed_err v p G) as [e0 F0].
        rewrite F0 in F. discriminate. }
      unfold get_or, NA in H. data_run d. rewrite ?py_format_plain.
      repeat split_result;
        try (do 2 eexists; split; [|reflexivity]; simpl; lia).
      repeat match goal with
      | E : py_format _ (Fixed _) = Ok _ |- _ =>
          apply K in E; rewrite E in H; clear E
      end.
      discriminate. }
    destruct B as (e & ls & L & B). exists e, ls. split; [exact L|].
    apply (on_message_raised _ _ _ _ _ _ _ w D J B).
Qed.

(** X4.  An air-quality document yields the full six-line report exactly
    when the score (0 if absent) is formattable and [co2_equivalent] and
    [voc_equivalent] are present and formattable; the score line opens
    with one of the four tier indicators.  Otherwise the call stops with
    at most four field lines before the error line. *)
Theorem iaq_report_dichotomy (timestamp : str) (raw : bytes) (text : str)
    (d : list (str * value)) (w : world) :
  bytes_decode raw = Ok text ->
  json_loads text = Ok (VDict d) ->
  let numeric :=
    formattable (get_or d "iaq_score" (VInt 0))
    && has_number d "co2_equivalent" && has_number d "voc_equivalent" in
  (numeric = true ->
   exists i s c v,
     (i < 4)%nat
     /\ iaq_indicator (get_or d "iaq_score" (VInt 0))
        = Ok (nth i [tier1; tier2; tier3; tier4] "")
     /\ on_message timestamp "sensor/bme680/iaq" raw w
        = (Returned tt,
           emits w
             (header timestamp "sensor/bme680/iaq"
              ++ [ (nth i [tier1; tier2; tier3; tier4] ""
                      ++ " IAQ Score    : " ++ s ++ " ["
                      ++ py_str (get_or d "iaq_text" (VStr "Unknown"))
                      ++ "]")%string;
                   ("🔢 IAQ Level    : " ++ field_text d "iaq_level")%string;
                   ("🎯 Accuracy     : " ++ field_text d "accuracy")%string;
                   ("🌫️  CO2 Equiv.   : " ++ c ++ " ppm")%string;
                   ("🧪 VOC Equiv.   : " ++ v ++ " ppm")%string;
                   ("✓  Calibrated   : "
                      ++ field_text d "is_calibrated")%string ])))
  /\ (numeric = false ->
      exists e ls,
        (List.length ls < 5)%nat
        /\ on_message timestamp "sensor/bme680/iaq" raw w
           = (Returned tt,
              emits w
                (header timestamp "sensor/bme680/iaq" ++ ls
                 ++ [("Error processing message: " ++ exn_str e)%string]))).
Proof.
  intros D J numeric. subst numeric.
  rewrite !has_number_get_or. split.
  - intros H.
    apply andb_prop in H; destruct H as [H H3].
    apply andb_prop in H; destruct H as [H1 H2].
    destruct (iaq_indicator_number _ (formattable_is_number _ H1))
      as (i & Li & T).
    destruct (py_format_fixed_ok _ 1 H1) as [s F1].
    destruct (py_format_fixed_ok _ 0 H2) as [c F2].
    destruct (py_format_fixed_ok _ 2 H3) as [v F3].
    exists i, s, c, v. split; [exact Li|]. split; [exact T|].
    rewrite (on_message_returned _ _ _ _ _ _ w D J
               (iaq_result_ok d _ s c v T F1 F2 F3)).
    rewrite !field_text_get_or. reflexivity.
  - intros H.
    assert (B : exists e ls,
               (List.length ls < 5)%nat
               /\ branch_result "sensor/bme680/iaq" (VDict d) = (Raised e, ls)).
    { assert (K : forall v p s,
                 py_format v (Fixed p) = Ok s -> formattable v = true).
      { intros v p s F. destruct (formattable v) eqn:G; [reflexivity|].
        destruct (py_format_fixed_err v p G) as [e0 F0].
        rewrite F0 in F. discriminate. }
      unfold get_or, NA in H. iaq_run d. rewrite ?py_format_plain.
      repeat split_result;
        try (do 2 eexists; split; [|reflexivity]; simpl; lia).
      repeat match goal with
      | E : py_format _ (Fixed _) = Ok _ |- _ =>
          apply K in E; rewrite E in H; clear E
      end.
      discriminate. }
    destruct B as (e & ls & L & B). exists e, ls. split; [exact L|].
    apply (on_message_raised _ _ _ _ _ _ _ w D J B).
Qed.


(** X6.  An air-quality document whose score is not a number (text, null,
    a list or a nested document) fails at the first comparison: no field
    line is printed, only the header and the [TypeError] line. *)
Theorem iaq_score_not_number (timestamp : str) (raw : bytes) (text : str)
    (d : list (str * value)) (w : world) :
  bytes_decode raw = Ok text ->
  json_loads text = Ok (VDict d) ->
  is_number (get_or d "iaq_score" (VInt 0)) = false ->
  on_message timestamp "sensor/bme680/iaq" raw w
  = (Returned tt,
     emits w
       (header timestamp "sensor/bme680/iaq"
        ++ [("Error processing message: '<=' not supported between instances of '"
             ++ type_name (get_or d "iaq_score" (VInt 0))
             ++ "' and 'int'")%string])).
Proof.
  intros D J N.
  assert (B : branch_result "sensor/bme680/iaq" (VDict d)
              = (Raised (mk_exn TypeError
                           ("'<=' not supported between instances of '"
                            ++ type_name (get_or d "iaq_score" (VInt 0))
                            ++ "' and 'int'")), [])).
  { pose proof (iaq_indicator_not_number _ N) as T.
    unfold get_or in *. iaq_run d. rewrite T. reflexivity. }
  rewrite (on_message_raised _ _ _ _ _ _ _ w D J B). reflexivity.
Qed.

(** The number of lines a branch prints: at most six, at least one when it
    returns, at most five before an exception. *)
Lemma branch_result_length (topic : str) (payload : value) :
  match branch_result topic payload with
  | (Returned _, ls) => (1 <= List.length ls <= 6)%nat
  | (Raised _, ls) => (List.length ls <= 5)%nat
  end.
Proof.
  rewrite branch_result_by_category.
  destruct (categoryOf topic); unfold branch_of;
    [ unfold data_branch | unfold iaq_branch | unfold status_branch
    | unfold alert_branch | unfold fallback_branch ];
    destruct payload; py_run;
    repeat split_result;
    cbv beta iota zeta delta [app List.length stdout]; lia.
Qed.

(** X7.  The shape of every report: one line when the payload does not
    decode, and otherwise the three header lines followed by one to six
    lines. *)
Theorem report_shape (timestamp topic : str) (raw : bytes) :
  ((forall text payload,
       bytes_decode raw = Ok text -> json_loads text <> Ok payload)
   /\ exists line, report timestamp topic raw = [line])
  \/ (exists text payload rest,
        bytes_decode raw = Ok text
        /\ json_loads text = Ok payload
        /\ report timestamp topic raw = (header timestamp topic ++ rest)%list
        /\ (1 <= List.length rest <= 6)%nat).
Proof.
  destruct (bytes_decode raw) as [text|e] eqn:D.
  - destruct (json_loads text) as [payload|e] eqn:J.
    + right. exists text, payload.
      pose proof (branch_result_length topic payload) as L.
      destruct (branch_result topic payload) as [[[]|e] ls] eqn:B.
      * exists ls. split; [reflexivity|]. split; [exact J|].
        split; [|lia].
        apply (report_of_run _ _ _ _ (mk_world [] [])).
        apply (on_message_returned _ _ _ _ _ _ _ D J B).
      * exists (ls ++ [error_line e])%list.
        split; [reflexivity|]. split; [exact J|]. split.
        -- apply (report_of_run _ _ _ _ (mk_world [] [])).
           apply (on_message_raised _ _ _ _ _ _ _ _ D J B).
        -- rewrite length_app. simpl. lia.
    + left. split.
      * intros text' payload E. inversion E; subst. rewrite J. discriminate.
      * eexists. apply (report_of_run _ _ _ _ (mk_world [] [])).
        apply (on_message_malformed _ _ _ _ _ _ D J).
  - left. split.
    + intros text payload E. discriminate.
    + eexists. apply (report_of_run _ _ _ _ (mk_world [] [])).
      apply (on_message_undecodable _ _ _ _ _ D).
Qed.

(** X8.  The registry and the chain agree: the topics of [TOPICS] are
    distinct, and a topic has a branch of its own exactly when it is in
    [TOPICS]. *)
Theorem dedicated_branch_iff_registered (topic : str) :
  NoDup (map fst TOPICS)
  /\ (categoryOf topic <> Unknown <-> In topic (map fst TOPICS)).
Proof.
  split.
  - simpl. repeat constructor; simpl; intuition discriminate.
  - split.
    + intros H.
      destruct (in_dec string_dec topic (map fst TOPICS)) as [I|N];
        [exact I|].
      exfalso. apply H. apply categoryOf_unregistered. exact N.
    + simpl. intros [H|[H|[H|[H|[]]]]]; subst topic; discriminate.
Qed.

(** X9.  The tier never improves as the score grows: for numeric scores
    [a <= b], the tier of [a] comes no later in the order tier 1 .. tier 4
    than the tier of [b]. *)
Theorem iaq_tier_monotone (a b : value) (qa qb : Q) :
  numeric_value a = Some qa ->
  numeric_value b = Some qb ->
  (qa <= qb)%Q ->
  exists i j,
    (i <= j < 4)%nat
    /\ iaq_indicator a = Ok (nth i [tier1; tier2; tier3; tier4] "")
    /\ iaq_indicator b = Ok (nth j [tier1; tier2; tier3; tier4] "").
Proof.
  intros Ha Hb L.
  destruct (iaq_indicator_numeric a qa Ha) as (A1 & A2 & A3 & A4).
  destruct (iaq_indicator_numeric b qb Hb) as (B1 & B2 & B3 & B4).
  destruct (Qlt_le_dec 50 qa) as [a50|a50];
    [destruct (Qlt_le_dec 100 qa) as [a100|a100];
       [destruct (Qlt_le_dec 150 qa) as [a150|a150]|]|];
  (destruct (Qlt_le_dec 50 qb) as [b50|b50];
    [destruct (Qlt_le_dec 100 qb) as [b100|b100];
       [destruct (Qlt_le_dec 150 qb) as [b150|b150]|]|]);
  try lra;
  match goal with
  | |- _ =>
      first
        [ exists 0%nat, 0%nat; split; [lia|]; split; [apply A1 | apply B1]; solve [lra]
        | exists 0%nat, 1%nat; split; [lia|]; split; [apply A1 | apply B2]; solve [split; lra | lra]
        | exists 0%nat, 2%nat; split; [lia|]; split; [apply A1 | apply B3]; solve [split; lra | lra]
        | exists 0%nat, 3%nat; split; [lia|]; split; [apply A1 | apply B4]; solve [lra]
        | exists 1%nat, 1%nat; split; [lia|]; split; [apply A2 | apply B2]; solve [split; lra]
        | exists 1%nat, 2%nat; split; [lia|]; split; [apply A2 | apply B3]; solve [split; lra]
        | exists 1%nat, 3%nat; split; [lia|]; split; [apply A2 | apply B4]; solve [split; lra | lra]
        | exists 2%nat, 2%nat; split; [lia|]; split; [apply A3 | apply B3]; solve [split; lra]
        | exists 2%nat, 3%nat; split; [lia|]; split; [apply A3 | apply B4]; solve [split; lra | lra]
        | exists 3%nat, 3%nat; split; [lia|]; split; [apply A4 | apply B4]; solve [lra] ]
  end.
Qed.

Lemma all_ws_skip (s : string) : all_ws s = true -> skip_ws s = "".
Proof.
  induction s as [|c r IH]; simpl; [reflexivity|].
  destruct (is_ws c); simpl; [exact IH | discriminate].
Qed.

Lemma all_ws_utf8 (s : string) (pos : N) :
  all_ws s = true -> utf8_scan pos s = None.
Proof.
  revert pos. induction s as [|c r IH]; intros pos; simpl; [reflexivity|].
  intros H. apply andb_prop in H. destruct H as [W H].
  assert (A : (N_of_ascii c <? 128)%N = true).
  { unfold is_ws in W. apply N.ltb_lt.
    repeat (apply orb_prop in W; destruct W as [W|W]);
      apply N.eqb_eq in W; rewrite W; reflexivity. }
  rewrite A. apply IH. exact H.
Qed.

(** X10.  A payload that is empty or holds only JSON whitespace is not a
    document: the report is the single line with the label and the
    payload. *)
Theorem blank_payload_echoed (timestamp topic : str) (raw : bytes) (w : world) :
  all_ws raw = true ->
  on_message timestamp topic raw w
  = (Returned tt, emits w [("Raw message: " ++ raw)%string]).
Proof.
  intros H.
  assert (D : bytes_decode raw = Ok raw)
    by (unfold bytes_decode; rewrite (all_ws_utf8 _ _ H); reflexivity).
  assert (J : json_loads raw = Err json_decode_error).
  { unfold json_loads. rewrite (all_ws_skip _ H).
    replace (2 * String.length raw + 2)%nat
      with (S (2 * String.length raw + 1))%nat by lia.
    reflexivity. }
  apply (on_message_malformed _ _ _ _ _ _ D J).
Qed.

(** ** The connection callbacks, the event loop and [main] *)

Lemma say_run (line : str) (s : session) :
  say line s
  = (Returned tt, mk_session (emits (console s) [line]) (subscribed s)).
Proof. reflexivity. Qed.

Lemma emits_topics (w : world) (ls : list str) : topics (emits w ls) = topics w.
Proof. reflexivity. Qed.

(** The loop of [on_connect] over a list of topics. *)
Lemma subscribe_loop_run (registry : list (str * Z)) (s : session) :
  for_each registry
    (fun entry =>
       subscribe (fst entry) (snd entry) >>
       say ("📡 Subscribed to: " ++ fst entry)) s
  = (Returned tt,
     mk_session
       (emits (console s)
          (map (fun entry => "📡 Subscribed to: " ++ fst entry) registry))
       (subscribed s ++ registry)).
Proof.
  revert s. induction registry as [|[topic qos] rest IH]; intros s.
  - simpl. unfold cb_ret. rewrite emits_nil, app_nil_r.
    destruct s; reflexivity.
  - simpl for_each. unfold cb_bind at 1. unfold cb_bind at 1.
    unfold subscribe at 1. rewrite say_run. rewrite IH. simpl.
    rewrite emits_emits, <- app_assoc. reflexivity.
Qed.

Lemma on_connect_run (rc : reason_code) (s : session) :
  on_connect rc s
  = (Returned tt,
     mk_session
       (emits (console s) (event_lines (topics (console s)) (Connected rc)))
       (subscribed s ++ event_requests (topics (console s)) (Connected rc))).
Proof.
  unfold on_connect, event_lines, event_requests.
  destruct (rc_value rc =? 0).
  - unfold cb_bind, read_topics. rewrite !say_run. cbn [console subscribed].
    rewrite !emits_topics, subscribe_loop_run, !say_run.
    cbn [console subscribed]. rewrite !emits_emits. reflexivity.
  - rewrite say_run, app_nil_r. reflexivity.
Qed.

Lemma handle_run (ev : event) (s : session) :
  handle ev s
  = (Returned tt,
     mk_session
       (emits (console s) (event_lines (topics (console s)) ev))
       (subscribed s ++ event_requests (topics (console s)) ev)).
Proof.
  destruct ev as [rc|rc|[[timestamp topic] raw]].
  - apply on_connect_run.
  - unfold handle, on_disconnect. rewrite say_run. simpl.
    rewrite app_nil_r. reflexivity.
  - unfold handle, on_console. simpl fst. simpl snd.
    rewrite on_message_run. simpl. rewrite app_nil_r. reflexivity.
Qed.

Lemma process_run (evs : list event) (s : session) :
  process evs s
  = (Returned tt,
     mk_session
       (emits (console s) (flat_map (event_lines (topics (console s))) evs))
       (subscribed s ++ flat_map (event_requests (topics (console s))) evs)).
Proof.
  unfold process. revert s. induction evs as [|ev evs IH]; intros s.
  - simpl. unfold cb_ret. rewrite emits_nil, app_nil_r.
    destruct s; reflexivity.
  - simpl for_each. unfold cb_bind. rewrite handle_run, IH. simpl.
    rewrite emits_emits, <- app_assoc. reflexivity.
Qed.

(** X11.  An accepted connection ([rc == 0]) asks for every topic of
    [TOPICS], once and in order, with its quality level, and prints three
    lines, one line per topic, and two closing lines. *)
Theorem on_connect_accepted (rc : reason_code) (s : session) :
  rc_value rc = 0 ->
  exists w',
    on_connect rc s = (Returned tt, mk_session w' (subscribed s ++ topics (console s)))
    /\ topics w' = topics (console s)
    /\ stdout w'
       = (stdout (console s)
          ++ [ (newline ++ rule)%string;
               "✅ Connected to MQTT Broker successfully!";
               rule ]
          ++ map (fun entry => ("📡 Subscribed to: " ++ fst entry)%string)
               (topics (console s))
          ++ [ (rule ++ newline)%string;
               ("Waiting for sensor data..." ++ newline)%string ])%list.
Proof.
  intros H. rewrite on_connect_run. unfold event_lines, event_requests.
  rewrite H. simpl Z.eqb. cbv iota.
  eexists. split; [reflexivity|]. split; reflexivity.
Qed.

(** X12.  A refused connection ([rc != 0]) asks for no topic and prints
    the single failure line with the text of the reason code. *)
Theorem on_connect_refused (rc : reason_code) (s : session) :
  rc_value rc <> 0 ->
  on_connect rc s
  = (Returned tt,
     mk_session
       (emits (console s)
          [("❌ Failed to connect, return code " ++ rc_text rc)%string])
       (subscribed s)).
Proof.
  intros H. rewrite on_connect_run. unfold event_lines, event_requests.
  apply Z.eqb_neq in H. rewrite H. rewrite app_nil_r. reflexivity.
Qed.

(** X13.  No callback raises, whatever the events: the loop runs through
    every sequence of connections, disconnections and messages.  The
    console receives the lines of each event in order, and the requests
    on the client are the whole registry once per accepted connection,
    so every reconnection subscribes again. *)
Theorem process_events (evs : list event) (s : session) :
  exists w',
    process evs s
    = (Returned tt,
       mk_session w'
         (subscribed s
          ++ flat_map
               (fun ev =>
                  match ev with
                  | Connected rc =>
                      if rc_value rc =? 0 then topics (console s) else []
                  | _ => []
                  end) evs))
    /\ topics w' = topics (console s)
    /\ stdout w'
       = (stdout (console s)
          ++ flat_map (event_lines (topics (console s))) evs)%list.
Proof.
  rewrite process_run. eexists. split; [reflexivity|]. split; reflexivity.
Qed.

Lemma main_run (client : transport) (host : str) (port : Z) (s : session) :
  main client host port s
  = cb_try (connect client host port 60 >> loop_forever client)
      (main_except client)
      (mk_session
         (emits (console s)
            [ newline ++ rule;
              "🚀 BME680 MQTT Subscriber";
              rule;
              "Connecting to: " ++ host ++ ":" ++ Z_to_str port ])
         (subscribed s)).
Proof.
  unfold main, cb_bind. rewrite !say_run. cbn [console subscribed].
  rewrite !emits_emits. reflexivity.
Qed.


(** X15.  [main] lets no [Exception] out: provided [disconnect] returns,
    whatever [connect] and [loop_forever] do, an exception that leaves
    [main] is of a class outside [Exception] ([SystemExit] from the error
    exit, or one that was raised as such). *)
Theorem main_never_leaks (client : transport) (host : str) (port : Z)
    (s s' : session) (e : exn) :
  (forall s0, exists s1, disconnect client s0 = (Returned tt, s1)) ->
  main client host port s = (Raised e, s') ->
  is_Exception e = false.
Proof.
  intros Q. rewrite main_run. unfold cb_try.
  destruct ((connect client host port 60 >> loop_forever client) _)
    as [[[]|e0] s0]; [discriminate|].
  unfold main_except.
  destruct (is_KeyboardInterrupt e0) eqn:K.
  - unfold cb_bind. rewrite say_run.
    match goal with
    | |- context [disconnect client ?x] => destruct (Q x) as [s1 Q1]; rewrite Q1
    end.
    discriminate.
  - destruct (is_Exception e0) eqn:X.
    + unfold cb_bind. rewrite say_run. unfold cb_raise.
      intros H. inversion H; subst. reflexivity.
    + unfold cb_raise. intros H. inversion H; subst. exact X.
Qed.

(** X16.  When [connect] fails with an [Exception], [main] prints one
    error line with the text of the exception and exits with status 1;
    [loop_forever] is never entered, whatever it would do. *)
Theorem main_connect_failure (client : transport) (host : str) (port : Z)
    (e : exn) (s : session) :
  is_Exception e = true ->
  (forall s0, connect client host port 60 s0 = (Raised e, s0)) ->
  main client host port s
  = (Raised (mk_exn SystemExit "1"),
     mk_session
       (emits (console s)
          [ (newline ++ rule)%string;
            "🚀 BME680 MQTT Subscriber";
            rule;
            ("Connecting to: " ++ host ++ ":" ++ Z_to_str port)%string;
            (newline ++ "❌ Error: " ++ exn_str e)%string ])
       (subscribed s)).
Proof.
  intros X C. rewrite main_run. unfold cb_try, cb_bind at 1. rewrite C.
  unfold main_except.
  assert (K : is_KeyboardInterrupt e = false)
    by (unfold is_KeyboardInterrupt, is_Exception in *;
        destruct (exn_cls e); try reflexivity; discriminate).
  rewrite K, X. unfold cb_bind. rewrite say_run. unfold cb_raise.
  cbn [console subscribed]. rewrite emits_emits. reflexivity.
Qed.

End Program.

(** * Worked examples *)

Lemma sample_decodes (text : str) :
  bytes_decode text = Ok text ->
  (exists v, json_loads text = Ok v) ->
  json_loads text = Ok (decoded text).
Proof.
  intros _ [v H]. unfold decoded. rewrite H. reflexivity.
Qed.

(** C2, the claim as stated fails: this air-quality document has no
    [iaq_score], and no line of its report carries the marker; the score
    line shows [0.0]. *)
Lemma iaq_missing_score_not_marked :
  json_loads iaq_without_score = Ok (VDict (entries (decoded iaq_without_score)))
  /\ dict_lookup "iaq_score" (entries (decoded iaq_without_score)) = None
  /\ report sample_database sample_time "sensor/bme680/iaq" iaq_without_score
     = (header sample_time "sensor/bme680/iaq"
        ++ [ "🟢 IAQ Score    : 0.0 [Good]";
             "🔢 IAQ Level    : 1";
             "🎯 Accuracy     : 3";
             "🌫️  CO2 Equiv.   : 413 ppm";
             "🧪 VOC Equiv.   : 0.50 ppm";
             "✓  Calibrated   : True" ])%list
  /\ existsb (str_contains "N/A")
       (report sample_database sample_time "sensor/bme680/iaq"
          iaq_without_score)
     = false.
Proof. vm_compute. repeat split. Qed.

Lemma iaq_missing_score_defaults_witness :
  bytes_decode iaq_without_score = Ok iaq_without_score
  /\ json_loads iaq_without_score
     = Ok (VDict (entries (decoded iaq_without_score)))
  /\ dict_lookup "iaq_score" (entries (decoded iaq_without_score)) = None
  /\ iaq_indicator
       (get_or (entries (decoded iaq_without_score)) "iaq_score" (VInt 0))
     = Ok tier1
  /\ exists rest,
       on_message sample_database sample_time "sensor/bme680/iaq"
         iaq_without_score initial_world
       = (Returned tt,
          emits initial_world
            (header sample_time "sensor/bme680/iaq"
             ++ "🟢 IAQ Score    : 0.0 [Good]"
                :: "🔢 IAQ Level    : 1"
                :: "🎯 Accuracy     : 3"
                :: rest)).
Proof.
  assert (D : bytes_decode iaq_without_score = Ok iaq_without_score)
    by (vm_compute; reflexivity).
  assert (J : json_loads iaq_without_score
              = Ok (VDict (entries (decoded iaq_without_score))))
    by (vm_compute; reflexivity).
  assert (S : dict_lookup "iaq_score" (entries (decoded iaq_without_score))
              = None)
    by (vm_compute; reflexivity).
  split; [exact D|]. split; [exact J|]. split; [exact S|].
  exact (iaq_missing_score_defaults sample_database sample_time
           iaq_without_score iaq_without_score
           (entries (decoded iaq_without_score)) initial_world D J S).
Defined.

Lemma iaq_tier_thresholds_witness :
  numeric_value (VInt 100) = Some (inject_Z 100)
  /\ iaq_indicator (VInt 100) = Ok tier2.
Proof.
  split; [reflexivity|].
  refine (proj1 (proj2 (proj1
            (iaq_tier_thresholds (VInt 100) (inject_Z 100) eq_refl))) _).
  split; [reflexivity | discriminate].
Defined.

(** C4, the claim as stated fails: [humidity] holds text; the report is
    not the error line alone: the header and the temperature line come
    before it. *)
Lemma wrong_shape_report_not_one_line :
  json_loads data_humidity_text
  = Ok (VDict (entries (decoded data_humidity_text)))
  /\ dict_lookup "humidity" (entries (decoded data_humidity_text))
     = Some (VStr "wet")
  /\ report sample_database sample_time "sensor/bme680/data" data_humidity_text
     = (header sample_time "sensor/bme680/data"
        ++ [ "🌡️  Temperature  : 21.50 °C";
             "Error processing message: Unknown format code 'f' for object of type 'str'" ])%list
  /\ List.length
       (report sample_database sample_time "sensor/bme680/data"
          data_humidity_text)
     <> 1%nat.
Proof. vm_compute. repeat split. discriminate. Qed.

Lemma field_error_reported_witness :
  bytes_decode data_humidity_text = Ok data_humidity_text
  /\ json_loads data_humidity_text = Ok (decoded data_humidity_text)
  /\ branch_result sample_database "sensor/bme680/data"
       (decoded data_humidity_text)
     = (Raised (mk_exn ValueError
                  "Unknown format code 'f' for object of type 'str'"),
        ["🌡️  Temperature  : 21.50 °C"])
  /\ on_message sample_database sample_time "sensor/bme680/data"
       data_humidity_text initial_world
     = (Returned tt,
        emits initial_world
          (header sample_time "sensor/bme680/data"
           ++ ["🌡️  Temperature  : 21.50 °C"]
           ++ ["Error processing message: Unknown format code 'f' for object of type 'str'"])).
Proof.
  assert (D : bytes_decode data_humidity_text = Ok data_humidity_text)
    by (vm_compute; reflexivity).
  assert (J : json_loads data_humidity_text = Ok (decoded data_humidity_text))
    by (vm_compute; reflexivity).
  assert (B : branch_result sample_database "sensor/bme680/data"
                (decoded data_humidity_text)
              = (Raised (mk_exn ValueError
                           "Unknown format code 'f' for object of type 'str'"),
                 ["🌡️  Temperature  : 21.50 °C"]))
    by (vm_compute; reflexivity).
  split; [exact D|]. split; [exact J|]. split; [exact B|].
  exact (field_error_reported sample_database sample_time "sensor/bme680/data"
           data_humidity_text data_humidity_text (decoded data_humidity_text)
           _ _ initial_world D J B).
Defined.



(** The end-to-end scenario of C8: [online] from [esp32-01]. *)
Lemma status_marker_witness :
  bytes_decode status_online = Ok status_online
  /\ json_loads status_online
     = Ok (VDict [("status", VStr "online"); ("client_id", VStr "esp32-01")])
  /\ on_message sample_database sample_time "sensor/bme680/status"
       status_online initial_world
     = (Returned tt,
        emits initial_world
          (header sample_time "sensor/bme680/status"
           ++ ["🟢 Status: online"; "📟 Client ID: esp32-01"])).
Proof.
  assert (D : bytes_decode status_online = Ok status_online)
    by (vm_compute; reflexivity).
  assert (J : json_loads status_online
              = Ok (VDict [("status", VStr "online");
                           ("client_id", VStr "esp32-01")]))
    by (vm_compute; reflexivity).
  split; [exact D|]. split; [exact J|].
  exact (proj1 (status_marker sample_database sample_time status_online
                  status_online _ initial_world D J)).
Defined.

Lemma status_defaults_witness :
  bytes_decode (dq "{}") = Ok (dq "{}")
  /\ json_loads (dq "{}") = Ok (VDict [])
  /\ on_message sample_database sample_time "sensor/bme680/status"
       (dq "{}") initial_world
     = (Returned tt,
        emits initial_world
          (header sample_time "sensor/bme680/status"
           ++ ["🔴 Status: unknown"; "📟 Client ID: unknown"])).
Proof.
  assert (D : bytes_decode (dq "{}") = Ok (dq "{}"))
    by (vm_compute; reflexivity).
  assert (J : json_loads (dq "{}") = Ok (VDict []))
    by (vm_compute; reflexivity).
  split; [exact D|]. split; [exact J|].
  exact (proj1 (status_defaults sample_database sample_time (dq "{}")
                  (dq "{}") [] initial_world D J) eq_refl).
Defined.

(** The boundary scores of C3, end to end: the score line of the report
    for the document [{"iaq_score": s}]. *)
Lemma iaq_boundary_reports :
  map (fun s =>
         nth 3 (report sample_database sample_time "sensor/bme680/iaq"
                  (dq ("{'iaq_score': " ++ s ++ "}"))) "")
      ["50"; "51"; "100"; "101"; "150"; "151"; "50.0"; "50.000001"]
  = [ "🟢 IAQ Score    : 50.0 [Unknown]";
      "🟡 IAQ Score    : 51.0 [Unknown]";
      "🟡 IAQ Score    : 100.0 [Unknown]";
      "🟠 IAQ Score    : 101.0 [Unknown]";
      "🟠 IAQ Score    : 150.0 [Unknown]";
      "🔴 IAQ Score    : 151.0 [Unknown]";
      "🟢 IAQ Score    : 50.0 [Unknown]";
      "🟡 IAQ Score    : 50.0 [Unknown]" ].
Proof. vm_compute. reflexivity. Qed.

(** The alert scenario: the three fields appear verbatim. *)
Lemma alert_scenario :
  report sample_database sample_time "sensor/bme680/alert"
    (dq "{'type':'high_voc','message':'VOC threshold exceeded','client_id':'esp32-01'}")
  = (header sample_time "sensor/bme680/alert"
     ++ [ "⚠️  Alert Type  : high_voc";
          "📢 Message     : VOC threshold exceeded";
          "📟 Client ID   : esp32-01" ])%list.
Proof. vm_compute. reflexivity. Qed.

(** * Worked examples for the further properties *)

Lemma undecodable_payload_reported_witness :
  bytes_decode not_utf8
  = Err (mk_exn UnicodeDecodeError
           "'utf-8' codec can't decode byte 0xff in position 0: invalid start byte")
  /\ on_message sample_database sample_time "sensor/bme680/data" not_utf8
       initial_world
     = (Returned tt,
        emits initial_world
          ["Error processing message: 'utf-8' codec can't decode byte 0xff in position 0: invalid start byte"]).
Proof.
  assert (D : bytes_decode not_utf8
              = Err (mk_exn UnicodeDecodeError
                       "'utf-8' codec can't decode byte 0xff in position 0: invalid start byte"))
    by (vm_compute; reflexivity).
  split; [exact D|].
  exact (proj1 (undecodable_payload_reported sample_database sample_time
                  "sensor/bme680/data" not_utf8 _ initial_world D)).
Defined.


Lemma data_report_dichotomy_witness :
  bytes_decode data_complete = Ok data_complete
  /\ json_loads data_complete = Ok (VDict (entries (decoded data_complete)))
  /\ forallb (has_number (entries (decoded data_complete)))
       ["temperature"; "humidity"; "pressure"; "gas_resistance"] = true
  /\ exists s1 s2 s3 s4,
       on_message sample_database sample_time "sensor/bme680/data"
         data_complete initial_world
       = (Returned tt,
          emits initial_world
            (header sample_time "sensor/bme680/data"
             ++ [ ("🌡️  Temperature  : " ++ s1 ++ " °C")%string;
                  ("💧 Humidity     : " ++ s2 ++ " %")%string;
                  ("🔵 Pressure     : " ++ s3 ++ " hPa")%string;
                  ("💨 Gas Resist.  : " ++ s4 ++ " Ohms")%string;
                  "✓  Gas Valid    : True" ])).
Proof.
  assert (D : bytes_decode data_complete = Ok data_complete)
    by (vm_compute; reflexivity).
  assert (J : json_loads data_complete
              = Ok (VDict (entries (decoded data_complete))))
    by (vm_compute; reflexivity).
  assert (N : forallb (has_number (entries (decoded data_complete)))
                ["temperature"; "humidity"; "pressure"; "gas_resistance"]
              = true)
    by (vm_compute; reflexivity).
  split; [exact D|]. split; [exact J|]. split; [exact N|].
  exact (proj1 (data_report_dichotomy sample_database sample_time
                  data_complete data_complete
                  (entries (decoded data_complete)) initial_world D J) N).
Defined.

(** The complete data report, evaluated. *)
Lemma data_complete_report :
  report sample_database sample_time "sensor/bme680/data" data_complete
  = (header sample_time "sensor/bme680/data"
     ++ [ "🌡️  Temperature  : 21.50 °C";
          "💧 Humidity     : 40.12 %";
          "🔵 Pressure     : 1013.25 hPa";
          "💨 Gas Resist.  : 50000 Ohms";
          "✓  Gas Valid    : True" ])%list.
Proof. vm_compute. reflexivity. Qed.

Lemma iaq_report_dichotomy_witness :
  bytes_decode iaq_complete = Ok iaq_complete
  /\ json_loads iaq_complete = Ok (VDict (entries (decoded iaq_complete)))
  /\ exists i s c v,
       (i < 4)%nat
       /\ iaq_indicator
            (get_or (entries (decoded iaq_complete)) "iaq_score" (VInt 0))
          = Ok (nth i [tier1; tier2; tier3; tier4] "")
       /\ on_message sample_database sample_time "sensor/bme680/iaq"
            iaq_complete initial_world
          = (Returned tt,
             emits initial_world
               (header sample_time "sensor/bme680/iaq"
                ++ [ (nth i [tier1; tier2; tier3; tier4] ""
                        ++ " IAQ Score    : " ++ s ++ " [Moderate]")%string;
                     "🔢 IAQ Level    : 2";
                     "🎯 Accuracy     : 3";
                     ("🌫️  CO2 Equiv.   : " ++ c ++ " ppm")%string;
                     ("🧪 VOC Equiv.   : " ++ v ++ " ppm")%string;
                     "✓  Calibrated   : True" ])).
Proof.
  assert (D : bytes_decode iaq_complete = Ok iaq_complete)
    by (vm_compute; reflexivity).
  assert (J : json_loads iaq_complete
              = Ok (VDict (entries (decoded iaq_complete))))
    by (vm_compute; reflexivity).
  split; [exact D|]. split; [exact J|].
  exact (proj1 (iaq_report_dichotomy sample_database sample_time
                  iaq_complete iaq_complete
                  (entries (decoded iaq_complete)) initial_world D J)
           eq_refl).
Defined.

(** The complete air-quality report, evaluated. *)
Lemma iaq_complete_report :
  report sample_database sample_time "sensor/bme680/iaq" iaq_complete
  = (header sample_time "sensor/bme680/iaq"
     ++ [ "🟡 IAQ Score    : 87.5 [Moderate]";
          "🔢 IAQ Level    : 2";
          "🎯 Accuracy     : 3";
          "🌫️  CO2 Equiv.   : 612 ppm";
          "🧪 VOC Equiv.   : 0.83 ppm";
          "✓  Calibrated   : True" ])%list.
Proof. vm_compute. reflexivity. Qed.


Lemma iaq_score_not_number_witness :
  bytes_decode iaq_score_text = Ok iaq_score_text
  /\ json_loads iaq_score_text = Ok (VDict [("iaq_score", VStr "high")])
  /\ on_message sample_database sample_time "sensor/bme680/iaq"
       iaq_score_text initial_world
     = (Returned tt,
        emits initial_world
          (header sample_time "sensor/bme680/iaq"
           ++ ["Error processing message: '<=' not supported between instances of 'str' and 'int'"])).
Proof.
  assert (D : bytes_decode iaq_score_text = Ok iaq_score_text)
    by (vm_compute; reflexivity).
  assert (J : json_loads iaq_score_text
              = Ok (VDict [("iaq_score", VStr "high")]))
    by (vm_compute; reflexivity).
  split; [exact D|]. split; [exact J|].
  exact (iaq_score_not_number sample_database sample_time iaq_score_text
           iaq_score_text _ initial_world D J eq_refl).
Defined.

Lemma iaq_tier_monotone_witness :
  numeric_value (VInt 50) = Some (inject_Z 50)
  /\ numeric_value (VInt 151) = Some (inject_Z 151)
  /\ (inject_Z 50 <= inject_Z 151)%Q
  /\ exists i j,
       (i <= j < 4)%nat
       /\ iaq_indicator (VInt 50) = Ok (nth i [tier1; tier2; tier3; tier4] "")
       /\ iaq_indicator (VInt 151) = Ok (nth j [tier1; tier2; tier3; tier4] "").
Proof.
  assert (L : (inject_Z 50 <= inject_Z 151)%Q) by (vm_compute; discriminate).
  split; [reflexivity|]. split; [reflexivity|]. split; [exact L|].
  exact (iaq_tier_monotone (VInt 50) (VInt 151) _ _ eq_refl eq_refl L).
Defined.

Lemma blank_payload_echoed_witness :
  all_ws "" = true
  /\ on_message sample_database sample_time "sensor/bme680/data" ""
       initial_world
     = (Returned tt, emits initial_world ["Raw message: "]).
Proof.
  split; [reflexivity|].
  exact (blank_payload_echoed sample_database sample_time
           "sensor/bme680/data" "" initial_world eq_refl).
Defined.

Lemma on_connect_accepted_witness :
  rc_value accepted = 0
  /\ exists w',
       on_connect accepted initial_session
       = (Returned tt, mk_session w' TOPICS)
       /\ topics w' = TOPICS
       /\ stdout w'
          = [ (newline ++ rule)%string;
              "✅ Connected to MQTT Broker successfully!";
              rule;
              "📡 Subscribed to: sensor/bme680/data";
              "📡 Subscribed to: sensor/bme680/iaq";
              "📡 Subscribed to: sensor/bme680/status";
              "📡 Subscribed to: sensor/bme680/alert";
              (rule ++ newline)%string;
              ("Waiting for sensor data..." ++ newline)%string ].
Proof.
  split; [reflexivity|].
  exact (on_connect_accepted sample_database accepted initial_session eq_refl).
Defined.

Lemma on_connect_refused_witness :
  rc_value refused <> 0
  /\ on_connect refused initial_session
     = (Returned tt,
        mk_session
          (emits initial_world
             ["❌ Failed to connect, return code Not authorized"])
          []).
Proof.
  assert (N : rc_value refused <> 0) by (vm_compute; discriminate).
  split; [exact N|].
  exact (on_connect_refused sample_database refused initial_session N).
Defined.


Lemma main_connect_failure_witness :
  is_Exception (mk_exn ValueError "Invalid host.") = true
  /\ main
       (refusing_client (mk_exn ValueError "Invalid host."))
       "" 1883 initial_session
     = (Raised (mk_exn SystemExit "1"),
        mk_session
          (emits initial_world
             [ (newline ++ rule)%string;
               "🚀 BME680 MQTT Subscriber";
               rule;
               "Connecting to: :1883";
               (newline ++ "❌ Error: Invalid host.")%string ])
          []).
Proof.
  split; [reflexivity|].
  exact (main_connect_failure
           (refusing_client (mk_exn ValueError "Invalid host."))
           "" 1883 (mk_exn ValueError "Invalid host.") initial_session
           eq_refl (fun _ => eq_refl)).
Defined.

Lemma main_never_leaks_witness :
  (forall s0, exists s1,
      disconnect (refusing_client (mk_exn ValueError "Invalid host.")) s0
      = (Returned tt, s1))
  /\ (exists s',
        main
          (refusing_client (mk_exn ValueError "Invalid host."))
          "" 1883 initial_session
        = (Raised (mk_exn SystemExit "1"), s'))
  /\ is_Exception (mk_exn SystemExit "1") = false.
Proof.
  assert (Q : forall s0, exists s1,
             disconnect (refusing_client (mk_exn ValueError "Invalid host.")) s0
             = (Returned tt, s1))
    by (intros s0; exists s0; reflexivity).
  assert (M : main
                (refusing_client (mk_exn ValueError "Invalid host."))
                "" 1883 initial_session
              = (Raised (mk_exn SystemExit "1"),
                 snd (main
                        (refusing_client (mk_exn ValueError "Invalid host."))
                        "" 1883 initial_session)))
    by (vm_compute; reflexivity).
  split; [exact Q|]. split; [eexists; exact M|].
  exact (main_never_leaks
           (refusing_client (mk_exn ValueError "Invalid host."))
           "" 1883 initial_session _ _ Q M).
Defined.
